(** * Timestamp-authority verification (pkg/verifier/tsa.go)

    A shallow embedding of [TimestampAuthorityVerifier]: the threshold
    check of [NewVerify], the per-token loop, and the trust-anchor search
    of [verifySignedTimestamp].  The Go packages the file imports are
    mirrored by modules of the same name; the calls the verifier makes on
    its collaborators are recorded in a call trace, so that statements
    about what is (not) invoked can be made. *)

From Stdlib Require Import ZArith List Bool String Ascii Lia.
From Stdlib.Strings Require Import Byte.
From Stdlib Require Import DecimalString Permutation.
Import ListNotations.
Local Open Scope string_scope.
Local Open Scope list_scope.
Local Open Scope Z_scope.

(** ** Go values *)

(** A byte slice ([[]byte]). *)
Definition bytes := list byte.

(** [bytes.Equal]. *)
Fixpoint bytes_Equal (a b : bytes) : bool :=
  match a, b with
  | [], [] => true
  | x :: a', y :: b' => Byte.eqb x y && bytes_Equal a' b'
  | _, _ => false
  end.

(** Go's [error]: a value with an [Error()] message; [nil] is [None] of
    [option error]. *)
Record error := errors_New { Error : string }.

(** A Go [(T, error)] return of which the value is only used when the
    error is [nil]. *)
Inductive result (A : Type) : Type :=
| Ok (a : A)
| Err (e : error).
Arguments Ok {A} a.
Arguments Err {A} e.

(** [%d] of [fmt]. *)
Definition itoa (z : Z) : string := NilZero.string_of_int (Z.to_int z).

(** [fmt.Errorf("not enough signed timestamps: %d < %d", n, k)]. *)
Definition Errorf_not_enough (n k : Z) : error :=
  errors_New ("not enough signed timestamps: " ++ itoa n ++ " < " ++ itoa k)%string.

(** ** package time *)
Module time.

(** An instant: seconds since January 1, year 1 00:00:00 UTC and the
    nanoseconds within that second (what [t.sec()] and [t.nsec()] give). *)
Record Time := { sec : Z; nsec : Z }.

Definition IsZero (t : Time) : bool := (sec t =? 0) && (nsec t =? 0).

Definition Before (t u : Time) : bool :=
  (sec t <? sec u) || ((sec t =? sec u) && (nsec t <? nsec u)).

Definition After (t u : Time) : bool :=
  (sec t >? sec u) || ((sec t =? sec u) && (nsec t >? nsec u)).

(** The zero value [time.Time{}]. *)
Definition zero : Time := {| sec := 0; nsec := 0 |}.

(** The chronological order the three predicates above decide. *)
Definition lt (t u : Time) : Prop :=
  sec t < sec u \/ (sec t = sec u /\ nsec t < nsec u).
Definition le (t u : Time) : Prop := lt t u \/ t = u.

End time.

(** ** package crypto/x509 *)
Module x509.

Record Certificate := { Raw : bytes }.

(** [cert.Equal(other)]: the raw encodings are the same bytes. *)
Definition Equal (c d : Certificate) : bool := bytes_Equal (Raw c) (Raw d).

(** A pool holds each certificate once. *)
Definition CertPool := list Certificate.
Definition NewCertPool : CertPool := [].
Definition AddCert (s : CertPool) (cert : Certificate) : CertPool :=
  if existsb (Equal cert) s then s else s ++ [cert].

Inductive ExtKeyUsage := ExtKeyUsageAny | ExtKeyUsageTimeStamping.

Record VerifyOptions := {
  CurrentTime : time.Time;
  Roots : CertPool;
  Intermediates : CertPool;
  KeyUsages : list ExtKeyUsage
}.

End x509.

(** ** package tsaverification (timestamp-authority/pkg/verification) *)
Module tsaverification.

Record VerifyOpts := {
  Roots : list x509.Certificate;
  Intermediates : list x509.Certificate;
  TSACertificate : x509.Certificate
}.

(** The part of [timestamp.Timestamp] the verifier reads. *)
Record Timestamp := { Time : time.Time }.

End tsaverification.

(** ** package root *)
Module root.

(** Modelled from the spec: the struct [CertificateAuthority] of pkg/root,
    declared outside pkg/verifier/tsa.go: a root certificate, an ordered
    list of intermediate certificates, a leaf (TSA) certificate, and a
    validity-period start and end, each unset when it is the zero time. *)
Record CertificateAuthority := {
  Root : x509.Certificate;
  Intermediates : list x509.Certificate;
  Leaf : x509.Certificate;
  ValidityPeriodStart : time.Time;
  ValidityPeriodEnd : time.Time
}.

(** Modelled from the spec: the interface [TrustedMaterial] of pkg/root,
    declared outside pkg/verifier/tsa.go: it supplies the ordered sequence
    of candidate certificate authorities. *)
Record TrustedMaterial := {
  TSACertificateAuthorities : list CertificateAuthority
}.

End root.

(** ** package bundle *)
Module bundle.

(** Modelled from the spec: the interface [VerificationContent] of
    pkg/bundle, declared outside pkg/verifier/tsa.go:
    [ValidAtTime(time, TrustedMaterial) -> bool]. *)
Record VerificationContent := {
  ValidAtTime : time.Time -> root.TrustedMaterial -> bool
}.

End bundle.

(** ** package verifier *)

(** Modelled from the spec: the signature content a signed entity exposes,
    declared outside pkg/verifier/tsa.go; [GetSignature] gives the raw
    signature bytes. *)
Record SignatureContentT := { GetSignature : bytes }.

(** Modelled from the spec: the interface [SignedEntity], declared outside
    pkg/verifier/tsa.go, with its three accessors, each of which may fail.
    [Timestamps] keeps both components of the Go return, because
    [NewVerify] takes the length of the slice also when the error is not
    [nil]. *)
Record SignedEntity := {
  Timestamps : list bytes * option error;
  SignatureContent : result SignatureContentT;
  VerificationContent : result bundle.VerificationContent
}.

Record TimestampAuthorityVerifier := NewTimestampAuthorityVerifier {
  trustedMaterial : root.TrustedMaterial;
  threshold : Z
}.

(** *** Calls on collaborators *)

Inductive Call :=
| Call_Timestamps
| Call_SignatureContent
| Call_GetSignature
| Call_VerificationContent
| Call_TSACertificateAuthorities
| Call_VerifyTimestampResponse
    (signedTimestamp signature : bytes) (opts : tsaverification.VerifyOpts)
| Call_Verify (leaf : x509.Certificate) (opts : x509.VerifyOptions)
| Call_ValidAtTime (t : time.Time).

(** The calls that do cryptographic work. *)
Definition is_cryptographic (c : Call) : bool :=
  match c with
  | Call_VerifyTimestampResponse _ _ _ | Call_Verify _ _ => true
  | _ => false
  end.

(** A computation: the calls it made, in order, and its value. *)
Definition M (A : Type) : Type := list Call * A.

Definition ret {A} (a : A) : M A := ([], a).
Definition bind {A B} (m : M A) (k : A -> M B) : M B :=
  let (t1, a) := m in let (t2, b) := k a in (t1 ++ t2, b).
Definition call {A} (c : Call) (answer : A) : M A := ([c], answer).
Definition calls {A} (m : M A) : list Call := fst m.
Definition value {A} (m : M A) : A := snd m.

Notation "x <- m ;; k" := (bind m (fun x => k))
  (at level 61, m at next level, right associativity).

(** The values [verifySignedTimestamp] builds for a candidate [ca] before it
    calls the primitives; they keep the names of its local variables. *)
Definition trustedRootVerificationOptions (ca : root.CertificateAuthority)
    : tsaverification.VerifyOpts :=
  {| tsaverification.Roots := [root.Root ca];
     tsaverification.Intermediates := root.Intermediates ca;
     tsaverification.TSACertificate := root.Leaf ca |}.

Definition tsaRootCertPool (ca : root.CertificateAuthority) : x509.CertPool :=
  x509.AddCert x509.NewCertPool (root.Root ca).

Definition tsaIntermediateCertPool (ca : root.CertificateAuthority) : x509.CertPool :=
  fold_left x509.AddCert (root.Intermediates ca) x509.NewCertPool.

Definition verificationOptions (ca : root.CertificateAuthority) (t : time.Time)
    : x509.VerifyOptions :=
  {| x509.CurrentTime := t;
     x509.Roots := tsaRootCertPool ca;
     x509.Intermediates := tsaIntermediateCertPool ca;
     x509.KeyUsages := [x509.ExtKeyUsageTimeStamping] |}.

Section Verifier.

(** The two external primitives: [tsaverification.VerifyTimestampResponse]
    and the [Verify] method of [x509.Certificate]. *)
Variable VerifyTimestampResponse :
  bytes -> bytes -> tsaverification.VerifyOpts -> result tsaverification.Timestamp.
Variable Certificate_Verify :
  x509.Certificate -> x509.VerifyOptions -> result (list (list x509.Certificate)).

(** The body of the loop over [certAuthorities]: [None] is [continue],
    [Some T] is [return T, nil]. *)
Definition tryCertAuthority (signedTimestamp dsseSignatureBytes : bytes)
    (trustedMaterial : root.TrustedMaterial)
    (verificationContent : bundle.VerificationContent)
    (ca : root.CertificateAuthority) : M (option time.Time) :=
  r <- call (Call_VerifyTimestampResponse signedTimestamp dsseSignatureBytes
               (trustedRootVerificationOptions ca))
            (VerifyTimestampResponse signedTimestamp dsseSignatureBytes
               (trustedRootVerificationOptions ca)) ;;
  match r with
  | Err _ => ret None
  | Ok timestamp =>
    r' <- call (Call_Verify (root.Leaf ca)
                  (verificationOptions ca (tsaverification.Time timestamp)))
               (Certificate_Verify (root.Leaf ca)
                  (verificationOptions ca (tsaverification.Time timestamp))) ;;
    match r' with
    | Err _ => ret None
    | Ok _ =>
      if negb (time.IsZero (root.ValidityPeriodStart ca))
         && time.Before (tsaverification.Time timestamp) (root.ValidityPeriodStart ca)
      then ret None
      else if negb (time.IsZero (root.ValidityPeriodEnd ca))
              && time.After (tsaverification.Time timestamp) (root.ValidityPeriodEnd ca)
      then ret None
      else
        valid <- call (Call_ValidAtTime (tsaverification.Time timestamp))
                      (bundle.ValidAtTime verificationContent
                         (tsaverification.Time timestamp) trustedMaterial) ;;
        if negb valid then ret None
        else ret (Some (tsaverification.Time timestamp))
    end
  end.

(** [for _, ca := range certAuthorities { ... }] and the return after it. *)
Fixpoint rangeCertAuthorities (signedTimestamp dsseSignatureBytes : bytes)
    (trustedMaterial : root.TrustedMaterial)
    (verificationContent : bundle.VerificationContent)
    (certAuthorities : list root.CertificateAuthority) : M (result time.Time) :=
  match certAuthorities with
  | [] => ret (Err (errors_New "Unable to verify signed timestamps"))
  | ca :: rest =>
    r <- tryCertAuthority signedTimestamp dsseSignatureBytes trustedMaterial
           verificationContent ca ;;
    match r with
    | Some t => ret (Ok t)
    | None => rangeCertAuthorities signedTimestamp dsseSignatureBytes trustedMaterial
                verificationContent rest
    end
  end.

Definition verifySignedTimestamp (signedTimestamp dsseSignatureBytes : bytes)
    (trustedMaterial : root.TrustedMaterial)
    (verificationContent : bundle.VerificationContent) : M (result time.Time) :=
  certAuthorities <- call Call_TSACertificateAuthorities
                       (root.TSACertificateAuthorities trustedMaterial) ;;
  rangeCertAuthorities signedTimestamp dsseSignatureBytes trustedMaterial
    verificationContent certAuthorities.

(** [for _, timestamp := range signedTimestamps { ... }] and the return
    after it; [verifiedTimestamps] is the slice built so far. *)
Fixpoint rangeSignedTimestamps (p : TimestampAuthorityVerifier)
    (signatureBytes : bytes) (verificationContent : bundle.VerificationContent)
    (signedTimestamps : list bytes) (verifiedTimestamps : list time.Time)
    : M (result (list time.Time)) :=
  match signedTimestamps with
  | [] => ret (Ok verifiedTimestamps)
  | timestamp :: rest =>
    r <- verifySignedTimestamp timestamp signatureBytes (trustedMaterial p)
           verificationContent ;;
    match r with
    | Err _ => ret (Err (errors_New "unable to verify timestamp"))
    | Ok verifiedSignedTimestamp =>
      rangeSignedTimestamps p signatureBytes verificationContent rest
        (verifiedTimestamps ++ [verifiedSignedTimestamp])
    end
  end.

Definition NewVerify (p : TimestampAuthorityVerifier) (entity : SignedEntity)
    : M (result (list time.Time)) :=
  ts <- call Call_Timestamps (Timestamps entity) ;;
  let (signedTimestamps, err) := ts in
  if match err with Some _ => true | None => false end
     || (Z.of_nat (List.length signedTimestamps) <? threshold p)
  then ret (Err (Errorf_not_enough (Z.of_nat (List.length signedTimestamps)) (threshold p)))
  else
    sc <- call Call_SignatureContent (SignatureContent entity) ;;
    match sc with
    | Err err => ret (Err err)
    | Ok sigContent =>
      signatureBytes <- call Call_GetSignature (GetSignature sigContent) ;;
      vc <- call Call_VerificationContent (VerificationContent entity) ;;
      match vc with
      | Err err => ret (Err err)
      | Ok verificationContent =>
        rangeSignedTimestamps p signatureBytes verificationContent signedTimestamps []
      end
    end.

(** [Verify] returns the [error] of [NewVerify]. *)
Definition Verify (p : TimestampAuthorityVerifier) (entity : SignedEntity)
    : M (option error) :=
  r <- NewVerify p entity ;;
  match r with
  | Ok _ => ret None
  | Err err => ret (Some err)
  end.

End Verifier.

(** ** What the checks amount to *)

(** [T] lies in the validity period of [ca]: a bound that is the zero time
    does not count. *)
Definition within_validity_period (ca : root.CertificateAuthority) (T : time.Time)
    : Prop :=
  (time.IsZero (root.ValidityPeriodStart ca) = true
     \/ time.le (root.ValidityPeriodStart ca) T) /\
  (time.IsZero (root.ValidityPeriodEnd ca) = true
     \/ time.le T (root.ValidityPeriodEnd ca)).

(** The four checks of the loop body all pass for [ca], with time [T]. *)
Definition accepted_by
    (VerifyTimestampResponse :
       bytes -> bytes -> tsaverification.VerifyOpts -> result tsaverification.Timestamp)
    (Certificate_Verify :
       x509.Certificate -> x509.VerifyOptions -> result (list (list x509.Certificate)))
    (signedTimestamp dsseSignatureBytes : bytes)
    (trustedMaterial : root.TrustedMaterial)
    (verificationContent : bundle.VerificationContent)
    (ca : root.CertificateAuthority) (T : time.Time) : Prop :=
  exists timestamp chains,
    VerifyTimestampResponse signedTimestamp dsseSignatureBytes
      (trustedRootVerificationOptions ca) = Ok timestamp /\
    tsaverification.Time timestamp = T /\
    Certificate_Verify (root.Leaf ca) (verificationOptions ca T) = Ok chains /\
    within_validity_period ca T /\
    bundle.ValidAtTime verificationContent T trustedMaterial = true.

(** The calls [verifySignedTimestamp] may make for the candidate [ca]: the
    token and the signature it was given with the options built from [ca],
    the leaf of [ca] against pools holding the root and the intermediates of
    [ca] only, for the time-stamping key usage, and the content cross-check. *)
Definition call_for_candidate (signedTimestamp dsseSignatureBytes : bytes)
    (ca : root.CertificateAuthority) (c : Call) : Prop :=
  match c with
  | Call_VerifyTimestampResponse tok sig opts =>
    tok = signedTimestamp /\ sig = dsseSignatureBytes /\
    tsaverification.Roots opts = [root.Root ca] /\
    tsaverification.Intermediates opts = root.Intermediates ca /\
    tsaverification.TSACertificate opts = root.Leaf ca
  | Call_Verify leaf opts =>
    leaf = root.Leaf ca /\
    x509.Roots opts = [root.Root ca] /\
    (forall cert, In cert (x509.Intermediates opts) -> In cert (root.Intermediates ca)) /\
    x509.KeyUsages opts = [x509.ExtKeyUsageTimeStamping]
  | Call_ValidAtTime _ => True
  | _ => False
  end.

Definition is_TSACertificateAuthorities (c : Call) : bool :=
  match c with Call_TSACertificateAuthorities => true | _ => false end.

Definition is_SignatureContent (c : Call) : bool :=
  match c with Call_SignatureContent => true | _ => false end.

(** ** Test doubles

    Small stand-ins for the collaborators: certificates of one byte, a timestamp primitive given by
    the table of issued tokens, a chain verifier that rejects the listed
    leaves, and a signing certificate with a lifetime. *)
Module fixture.

Definition at_sec (s : Z) : time.Time := {| time.sec := s; time.nsec := 0 |}.

Definition cert (b : byte) : x509.Certificate := {| x509.Raw := [b] |}.

(** A certificate authority whose root and leaf are [cert b]. *)
Definition authority (b : byte) (notBefore notAfter : time.Time)
    : root.CertificateAuthority :=
  {| root.Root := cert b;
     root.Intermediates := [];
     root.Leaf := cert b;
     root.ValidityPeriodStart := notBefore;
     root.ValidityPeriodEnd := notAfter |}.

Definition material (cas : list root.CertificateAuthority) : root.TrustedMaterial :=
  {| root.TSACertificateAuthorities := cas |}.

(** One line per issued token: the token, the TSA certificate it
    verifies under, and the time that verification yields. *)
Definition Issued := list (bytes * x509.Certificate * time.Time).

Fixpoint issuedAt (table : Issued) (token : bytes) (leaf : x509.Certificate)
    : option time.Time :=
  match table with
  | [] => None
  | (tok, c, t) :: rest =>
    if bytes_Equal tok token && x509.Equal c leaf then Some t
    else issuedAt rest token leaf
  end.

Definition VerifyTimestampResponse (table : Issued)
    (signedTimestamp signature : bytes) (opts : tsaverification.VerifyOpts)
    : result tsaverification.Timestamp :=
  match issuedAt table signedTimestamp (tsaverification.TSACertificate opts) with
  | Some t => Ok {| tsaverification.Time := t |}
  | None => Err (errors_New "unable to verify timestamp response")
  end.

Definition Certificate_Verify (untrusted : list x509.Certificate)
    (leaf : x509.Certificate) (opts : x509.VerifyOptions)
    : result (list (list x509.Certificate)) :=
  if existsb (x509.Equal leaf) untrusted
  then Err (errors_New "x509: certificate signed by unknown authority")
  else Ok [leaf :: x509.Roots opts].

(** A signing certificate valid from [notBefore] to [notAfter]. *)
Definition signingCertificate (notBefore notAfter : time.Time)
    : bundle.VerificationContent :=
  {| bundle.ValidAtTime := fun t _ =>
       negb (time.Before notAfter t || time.After notBefore t) |}.

Definition signature : SignatureContentT :=
  {| GetSignature := [x73; x69; x67] |}.

(** An entity carrying [tokens], signed with a certificate that lives
    from second 0 to second 1000. *)
Definition entity (tokens : list bytes) : SignedEntity :=
  {| Timestamps := (tokens, None);
     SignatureContent := Ok signature;
     VerificationContent := Ok (signingCertificate (at_sec 0) (at_sec 1000)) |}.

(** The same entity when its signature cannot be read. *)
Definition unsignedEntity (tokens : list bytes) : SignedEntity :=
  {| Timestamps := (tokens, None);
     SignatureContent := Err (errors_New "no signature in bundle");
     VerificationContent := Ok (signingCertificate (at_sec 0) (at_sec 1000)) |}.

(** Tokens and authorities used in the examples. *)
Definition tokenA : bytes := [x41].
Definition tokenB : bytes := [x42].
Definition tokenC : bytes := [x43].
Definition ca1 := authority x01 (at_sec 100) (at_sec 200).
Definition ca2 := authority x02 time.zero time.zero.
Definition ca3 := authority x03 time.zero time.zero.
Definition tokenD : bytes := [x44].
Definition tokenE : bytes := [x45].
Definition tokenX : bytes := [x58].

(** What the timestamp authorities of the examples have issued: [tokenA],
  [tokenD] and [tokenE] by the first authority (inside its window and at
  its two bounds), [tokenB] by the second, and [tokenC] by all three, each
  stating its own time; [tokenX] by nobody. *)
Definition issued : Issued :=
[ (tokenA, cert x01, at_sec 150);
  (tokenD, cert x01, at_sec 200);
  (tokenE, cert x01, at_sec 100);
  (tokenB, cert x02, at_sec 120);
  (tokenC, cert x01, at_sec 300);
  (tokenC, cert x03, at_sec 50);
  (tokenC, cert x02, at_sec 150) ].

Definition signingCert : bundle.VerificationContent :=
signingCertificate (at_sec 0) (at_sec 1000).

(** The primitives of the examples: the table above, and a chain verifier
  that trusts every leaf. *)
Definition tsa := VerifyTimestampResponse issued.
Definition chain := Certificate_Verify [].

Definition verifier (cas : list root.CertificateAuthority) (k : Z)
  : TimestampAuthorityVerifier :=
NewTimestampAuthorityVerifier (material cas) k.

End fixture.

(** Two more pieces for the examples: an authority whose validity period
    ends before it starts, and the table of issued tokens with a token of
    that authority added. *)
Module scenario.

Definition caInverted : root.CertificateAuthority :=
  fixture.authority x04 (fixture.at_sec 200) (fixture.at_sec 100).

Definition tokenF : bytes := [x46].

Definition tsa :=
  fixture.VerifyTimestampResponse
    ((tokenF, fixture.cert x04, fixture.at_sec 150) :: fixture.issued).



End scenario.

(** * Properties *)

(** ** The call-trace monad *)

Lemma value_bind {A B} (m : M A) (k : A -> M B) :
  value (bind m k) = value (k (value m)).
Proof.
  destruct m as [t a]; unfold bind, value; simpl.
  destruct (k a); reflexivity.
Qed.

Lemma calls_bind {A B} (m : M A) (k : A -> M B) :
  calls (bind m k) = calls m ++ calls (k (value m)).
Proof.
  destruct m as [t a]; unfold bind, calls, value; simpl.
  destruct (k a); reflexivity.
Qed.

Lemma value_call {A} (c : Call) (a : A) : value (call c a) = a.
Proof. reflexivity. Qed.

Lemma calls_call {A} (c : Call) (a : A) : calls (call c a) = [c].
Proof. reflexivity. Qed.

Lemma M_eq {A} (m : M A) : m = (calls m, value m).
Proof. destruct m; reflexivity. Qed.


(** ** Chronological order *)

Lemma Before_lt (t u : time.Time) : time.Before t u = true <-> time.lt t u.
Proof.
  unfold time.Before, time.lt.
  rewrite orb_true_iff, andb_true_iff, !Z.ltb_lt, Z.eqb_eq. tauto.
Qed.

Lemma After_lt (t u : time.Time) : time.After t u = true <-> time.lt u t.
Proof.
  unfold time.After, time.lt.
  rewrite orb_true_iff, andb_true_iff, !Z.gtb_ltb, !Z.ltb_lt, Z.eqb_eq.
  intuition lia.
Qed.

Lemma not_lt_le (t u : time.Time) : ~ time.lt t u <-> time.le u t.
Proof.
  unfold time.le, time.lt. destruct t as [s n], u as [s' n']; simpl. split.
  - intros H.
    destruct (Z.eq_dec s s') as [->|]; [destruct (Z.eq_dec n n') as [->|]|].
    + right; reflexivity.
    + left; lia.
    + left; lia.
  - intros [H | H] H'; [lia | injection H as -> ->; lia].
Qed.

Lemma Before_false_le (t u : time.Time) : time.Before t u = false <-> time.le u t.
Proof.
  rewrite <- not_lt_le, <- Before_lt. destruct (time.Before t u); intuition congruence.
Qed.

Lemma After_false_le (t u : time.Time) : time.After t u = false <-> time.le t u.
Proof.
  rewrite <- not_lt_le, <- After_lt. destruct (time.After t u); intuition congruence.
Qed.

(** ** The trust-anchor search *)

Section Search.

Variable VerifyTimestampResponse :
  bytes -> bytes -> tsaverification.VerifyOpts -> result tsaverification.Timestamp.
Variable Certificate_Verify :
  x509.Certificate -> x509.VerifyOptions -> result (list (list x509.Certificate)).

Variables (signedTimestamp dsseSignatureBytes : bytes).
Variable verificationContent : bundle.VerificationContent.

Local Abbreviation try tm :=
  (tryCertAuthority VerifyTimestampResponse Certificate_Verify
     signedTimestamp dsseSignatureBytes tm verificationContent).
Local Abbreviation range tm :=
  (rangeCertAuthorities VerifyTimestampResponse Certificate_Verify
     signedTimestamp dsseSignatureBytes tm verificationContent).
Local Abbreviation search tm :=
  (verifySignedTimestamp VerifyTimestampResponse Certificate_Verify
     signedTimestamp dsseSignatureBytes tm verificationContent).

(** The trust material reaches a candidate's checks through the content
    cross-check only. *)
Lemma try_same_cross_check tm tm' ca :
  (forall t, bundle.ValidAtTime verificationContent t tm'
             = bundle.ValidAtTime verificationContent t tm) ->
  try tm' ca = try tm ca.
Proof.
  intros H. unfold tryCertAuthority, bind, call.
  destruct (VerifyTimestampResponse _ _ _) as [timestamp|]; [|reflexivity].
  destruct (Certificate_Verify _ _); [|reflexivity].
  destruct (negb _ && time.Before _ _); [reflexivity|].
  destruct (negb _ && time.After _ _); [reflexivity|].
  rewrite H. reflexivity.
Qed.


(** A candidate that accepts the token has passed the four checks. *)
Lemma try_Some_accepted tm ca T :
  value (try tm ca) = Some T ->
  accepted_by VerifyTimestampResponse Certificate_Verify
    signedTimestamp dsseSignatureBytes tm verificationContent ca T.
Proof.
  unfold tryCertAuthority, bind, call, ret, accepted_by, within_validity_period.
  destruct (VerifyTimestampResponse _ _ _) as [timestamp|]; [|discriminate].
  destruct (Certificate_Verify _ _) as [chains|] eqn:Hcv; [|discriminate].
  destruct (negb _ && time.Before _ _) eqn:Hstart; [discriminate|].
  destruct (negb _ && time.After _ _) eqn:Hend; [discriminate|].
  destruct (bundle.ValidAtTime _ _ _) eqn:Hvalid; [|discriminate].
  simpl. intros [= <-]. exists timestamp, chains.
  apply andb_false_iff in Hstart, Hend.
  rewrite negb_false_iff, Before_false_le in Hstart.
  rewrite negb_false_iff, After_false_le in Hend.
  repeat split; assumption.
Qed.

(** A candidate that is rejected hands the scan to the rest of the list. *)
Lemma range_skip tm ca rest :
  value (try tm ca) = None ->
  value (range tm (ca :: rest)) = value (range tm rest) /\
  calls (range tm (ca :: rest)) = calls (try tm ca) ++ calls (range tm rest).
Proof.
  intros H. simpl. rewrite value_bind, calls_bind, H. split; reflexivity.
Qed.

(** A candidate that is accepted ends the scan. *)
Lemma range_stop tm ca rest T :
  value (try tm ca) = Some T ->
  value (range tm (ca :: rest)) = Ok T /\
  calls (range tm (ca :: rest)) = calls (try tm ca).
Proof.
  intros H. simpl. rewrite value_bind, calls_bind, H. simpl.
  split; [reflexivity | apply app_nil_r].
Qed.

Lemma range_all_rejected tm cas :
  (forall c, In c cas -> value (try tm c) = None) ->
  value (range tm cas) = Err (errors_New "Unable to verify signed timestamps") /\
  calls (range tm cas) = flat_map (fun c => calls (try tm c)) cas.
Proof.
  induction cas as [|ca rest IH]; intros Hall.
  - split; reflexivity.
  - destruct (range_skip tm ca rest) as [Hv Hc]; [apply Hall; left; reflexivity|].
    destruct IH as [IHv IHc]; [intros c Hc'; apply Hall; right; exact Hc'|].
    rewrite Hv, Hc, IHv, IHc. split; reflexivity.
Qed.

Lemma range_first_accepted tm pre ca post T :
  (forall c, In c pre -> value (try tm c) = None) ->
  value (try tm ca) = Some T ->
  value (range tm (pre ++ ca :: post)) = Ok T /\
  calls (range tm (pre ++ ca :: post)) =
    flat_map (fun c => calls (try tm c)) (pre ++ [ca]).
Proof.
  induction pre as [|c pre IH]; intros Hpre Hca.
  - destruct (range_stop tm ca post T Hca) as [Hv Hc].
    simpl app. rewrite Hv, Hc. simpl. rewrite app_nil_r. split; reflexivity.
  - destruct (range_skip tm c (pre ++ ca :: post)) as [Hv Hc];
      [apply Hpre; left; reflexivity|].
    destruct IH as [IHv IHc]; [intros c' Hc'; apply Hpre; right; exact Hc' | exact Hca |].
    simpl app. rewrite Hv, Hc, IHv, IHc. split; reflexivity.
Qed.

(** An accepted candidate in the list means some first accepted one. *)
Lemma first_accepted_exists tm cas ca T :
  In ca cas -> value (try tm ca) = Some T ->
  exists pre c post T',
    cas = pre ++ c :: post /\
    (forall c', In c' pre -> value (try tm c') = None) /\
    value (try tm c) = Some T'.
Proof.
  induction cas as [|h rest IH]; intros Hin Hca; [destruct Hin|].
  destruct (value (try tm h)) as [T'|] eqn:Hh.
  - exists [], h, rest, T'. repeat split; [intros c' []| exact Hh].
  - destruct Hin as [-> | Hin]; [congruence|].
    destruct (IH Hin Hca) as (pre & c & post & T' & -> & Hpre & Hc).
    exists (h :: pre), c, post, T'. repeat split; [|exact Hc].
    intros c' [<- | Hc']; [exact Hh | apply Hpre, Hc'].
Qed.

Lemma search_range tm :
  value (search tm) = value (range tm (root.TSACertificateAuthorities tm)) /\
  calls (search tm) =
    Call_TSACertificateAuthorities :: calls (range tm (root.TSACertificateAuthorities tm)).
Proof.
  unfold verifySignedTimestamp. rewrite value_bind, calls_bind. split; reflexivity.
Qed.

Lemma search_all_rejected tm :
  (forall c, In c (root.TSACertificateAuthorities tm) -> value (try tm c) = None) ->
  value (search tm) = Err (errors_New "Unable to verify signed timestamps").
Proof.
  intros H. destruct (search_range tm) as [-> _]. apply range_all_rejected, H.
Qed.

Lemma time_eq_dec (t u : time.Time) : {t = u} + {t <> u}.
Proof. decide equality; apply Z.eq_dec. Qed.

(** When every accepting candidate is [ca], the search yields [ca]'s time
    wherever [ca] stands. *)
Lemma search_single_match tm ca T :
  In ca (root.TSACertificateAuthorities tm) ->
  value (try tm ca) = Some T ->
  (forall c, In c (root.TSACertificateAuthorities tm) -> c <> ca ->
             value (try tm c) = None) ->
  value (search tm) = Ok T.
Proof.
  intros Hin Hca Hothers.
  destruct (first_accepted_exists tm _ ca T Hin Hca)
    as (pre & c & post & T' & Hcas & Hpre & Hc).
  destruct (search_range tm) as [-> _]. rewrite Hcas.
  destruct (range_first_accepted tm pre c post T' Hpre Hc) as [-> _].
  destruct (time_eq_dec T' T) as [-> | Hne]; [reflexivity|].
  exfalso. assert (Hcne : c <> ca) by (intros ->; congruence).
  rewrite (Hothers c) in Hc; [discriminate | | exact Hcne].
  rewrite Hcas. apply in_or_app. right; left; reflexivity.
Qed.

End Search.

(** ** Per-timestamp verification: the claims *)

Section PerTimestamp.

Variable VerifyTimestampResponse :
  bytes -> bytes -> tsaverification.VerifyOpts -> result tsaverification.Timestamp.
Variable Certificate_Verify :
  x509.Certificate -> x509.VerifyOptions -> result (list (list x509.Certificate)).

Local Abbreviation try :=
  (tryCertAuthority VerifyTimestampResponse Certificate_Verify).
Local Abbreviation search :=
  (verifySignedTimestamp VerifyTimestampResponse Certificate_Verify).

(** C2, as amended: for a token/candidate pairing that is otherwise valid
    (the token verifies cryptographically with time [T], the leaf chains
    at [T], the verification content is valid at [T]), the candidate
    accepts the token when [T] lies in the closed window [S, E], each bound
    counting only if it is set (not the zero time): [T = S] and [T = E] are
    both accepted.  A set start with [T] before it rejects, and a set end
    with [T] after it rejects. *)
Theorem validity_window_closed
    (tok sig : bytes) (tm : root.TrustedMaterial) (vc : bundle.VerificationContent)
    (ca : root.CertificateAuthority)
    (timestamp : tsaverification.Timestamp) (chains : list (list x509.Certificate)) :
  VerifyTimestampResponse tok sig (trustedRootVerificationOptions ca) = Ok timestamp ->
  Certificate_Verify (root.Leaf ca)
    (verificationOptions ca (tsaverification.Time timestamp)) = Ok chains ->
  bundle.ValidAtTime vc (tsaverification.Time timestamp) tm = true ->
  ((time.IsZero (root.ValidityPeriodStart ca) = true
      \/ time.le (root.ValidityPeriodStart ca) (tsaverification.Time timestamp)) /\
   (time.IsZero (root.ValidityPeriodEnd ca) = true
      \/ time.le (tsaverification.Time timestamp) (root.ValidityPeriodEnd ca)) ->
   value (try tok sig tm vc ca) = Some (tsaverification.Time timestamp)) /\
  (time.IsZero (root.ValidityPeriodStart ca) = false ->
   time.lt (tsaverification.Time timestamp) (root.ValidityPeriodStart ca) ->
   value (try tok sig tm vc ca) = None) /\
  (time.IsZero (root.ValidityPeriodEnd ca) = false ->
   time.lt (root.ValidityPeriodEnd ca) (tsaverification.Time timestamp) ->
   value (try tok sig tm vc ca) = None).
Proof.
  intros Hts Hchain Hvalid.
  assert (Hrun : value (try tok sig tm vc ca) =
    if negb (time.IsZero (root.ValidityPeriodStart ca))
       && time.Before (tsaverification.Time timestamp) (root.ValidityPeriodStart ca)
    then None
    else if negb (time.IsZero (root.ValidityPeriodEnd ca))
            && time.After (tsaverification.Time timestamp) (root.ValidityPeriodEnd ca)
    then None else Some (tsaverification.Time timestamp)).
  { unfold tryCertAuthority. rewrite value_bind, value_call, Hts.
    rewrite value_bind, value_call, Hchain.
    destruct (negb _ && time.Before _ _); [reflexivity|].
    destruct (negb _ && time.After _ _); [reflexivity|].
    rewrite value_bind, value_call, Hvalid. reflexivity. }
  rewrite Hrun. repeat split.
  - intros [HS HE].
    replace (negb _ && time.Before _ _) with false.
    replace (negb _ && time.After _ _) with false; [reflexivity|].
    + symmetry. destruct HE as [-> | HE]; [reflexivity|].
      apply After_false_le in HE. rewrite HE. apply andb_false_r.
    + symmetry. destruct HS as [-> | HS]; [reflexivity|].
      apply Before_false_le in HS. rewrite HS. apply andb_false_r.
  - intros HS Hlt. apply Before_lt in Hlt. rewrite HS, Hlt. reflexivity.
  - intros HE Hlt. apply After_lt in Hlt. rewrite HE, Hlt. simpl.
    destruct (negb _ && time.Before _ _); reflexivity.
Qed.

(** C9: when the candidates before [ca] in trust-material order all reject
    the token and [ca] accepts it at time [T], the search returns [T]
    whatever follows [ca] (also candidates that would accept it at another
    time), and the calls it makes are those for the candidates up to and
    including [ca]: none for a candidate after it. *)
Theorem first_accepting_candidate_wins
    (tok sig : bytes) (tm : root.TrustedMaterial) (vc : bundle.VerificationContent)
    (pre post : list root.CertificateAuthority) (ca : root.CertificateAuthority)
    (T : time.Time) :
  root.TSACertificateAuthorities tm = pre ++ ca :: post ->
  (forall c, In c pre -> value (try tok sig tm vc c) = None) ->
  value (try tok sig tm vc ca) = Some T ->
  value (search tok sig tm vc) = Ok T /\
  calls (search tok sig tm vc) =
    Call_TSACertificateAuthorities ::
      flat_map (fun c => calls (try tok sig tm vc c)) (pre ++ [ca]).
Proof.
  intros Hcas Hpre Hca.
  destruct (search_range VerifyTimestampResponse Certificate_Verify tok sig vc tm)
    as [-> ->].
  rewrite Hcas.
  destruct (range_first_accepted VerifyTimestampResponse Certificate_Verify
              tok sig vc tm pre ca post T Hpre Hca) as [-> ->].
  split; reflexivity.
Qed.


(** C5: a token that exactly one certificate authority [ca] of the trust
    material accepts (every other candidate rejects it) verifies with the
    time derived under [ca]; and for a trust material [tm'] that lists the
    same candidates in another order, the content cross-check answering
    alike for both, the result is that same success and time. *)
Theorem single_match_any_order
    (tok sig : bytes) (tm tm' : root.TrustedMaterial) (vc : bundle.VerificationContent)
    (ca : root.CertificateAuthority) (T : time.Time) :
  Permutation (root.TSACertificateAuthorities tm) (root.TSACertificateAuthorities tm') ->
  (forall t, bundle.ValidAtTime vc t tm' = bundle.ValidAtTime vc t tm) ->
  In ca (root.TSACertificateAuthorities tm) ->
  value (try tok sig tm vc ca) = Some T ->
  (forall c, In c (root.TSACertificateAuthorities tm) -> c <> ca ->
             value (try tok sig tm vc c) = None) ->
  value (search tok sig tm vc) = Ok T /\ value (search tok sig tm' vc) = Ok T.
Proof.
  intros Hperm Hsame Hin Hca Hothers.
  pose proof (try_same_cross_check VerifyTimestampResponse Certificate_Verify
                tok sig vc tm tm') as Htry.
  split.
  - apply search_single_match with (ca := ca); assumption.
  - apply search_single_match with (ca := ca).
    + apply (Permutation_in _ Hperm), Hin.
    + rewrite Htry; assumption.
    + intros c Hc Hne. rewrite Htry; [|assumption].
      apply Hothers; [|assumption].
      apply (Permutation_in _ (Permutation_sym Hperm)), Hc.
Qed.

End PerTimestamp.

(** ** The whole call *)

Section WholeCall.

Variable VerifyTimestampResponse :
  bytes -> bytes -> tsaverification.VerifyOpts -> result tsaverification.Timestamp.
Variable Certificate_Verify :
  x509.Certificate -> x509.VerifyOptions -> result (list (list x509.Certificate)).

Local Abbreviation try :=
  (tryCertAuthority VerifyTimestampResponse Certificate_Verify).
Local Abbreviation search :=
  (verifySignedTimestamp VerifyTimestampResponse Certificate_Verify).
Local Abbreviation loop :=
  (rangeSignedTimestamps VerifyTimestampResponse Certificate_Verify).
Local Abbreviation NewVerify' :=
  (NewVerify VerifyTimestampResponse Certificate_Verify).
Local Abbreviation Verify' :=
  (Verify VerifyTimestampResponse Certificate_Verify).

(** [tok] verifies with time [T] for the verifier [p]. *)
Local Abbreviation verifies p sig vc :=
  (fun tok T => value (search tok sig (trustedMaterial p) vc) = Ok T).

Lemma loop_all_verified p sig vc ts times :
  Forall2 (verifies p sig vc) ts times ->
  forall acc, value (loop p sig vc ts acc) = Ok (acc ++ times).
Proof.
  induction 1 as [|tok T ts times Htok _ IH]; intros acc; simpl.
  - rewrite app_nil_r. reflexivity.
  - rewrite value_bind, Htok, IH, <- app_assoc. reflexivity.
Qed.

Lemma loop_Ok_inv p sig vc ts :
  forall acc out, value (loop p sig vc ts acc) = Ok out ->
  exists times, out = acc ++ times /\ Forall2 (verifies p sig vc) ts times.
Proof.
  induction ts as [|tok ts IH]; intros acc out; simpl.
  - intros [= <-]. exists []. rewrite app_nil_r. split; constructor.
  - rewrite value_bind.
    destruct (value (search tok sig (trustedMaterial p) vc)) as [T|e] eqn:Htok.
    + intros Hrest. destruct (IH _ _ Hrest) as (times & -> & Hall).
      exists (T :: times). rewrite <- app_assoc. split; [reflexivity|].
      constructor; assumption.
    + discriminate.
Qed.

Lemma loop_unverifiable p sig vc ts tok e :
  In tok ts ->
  value (search tok sig (trustedMaterial p) vc) = Err e ->
  forall acc,
    value (loop p sig vc ts acc) = Err (errors_New "unable to verify timestamp").
Proof.
  intros Hin Htok. induction ts as [|h ts IH]; intros acc; [destruct Hin|].
  simpl. rewrite value_bind.
  destruct (value (search h sig (trustedMaterial p) vc)) as [T|e'] eqn:Hh.
  - destruct Hin as [-> | Hin]; [congruence | apply IH, Hin].
  - reflexivity.
Qed.

(** With no token attached the loop makes no call. *)
Lemma loop_nil p sig vc acc : loop p sig vc [] acc = ([], Ok acc).
Proof. reflexivity. Qed.

(** The threshold check rejects. *)
Lemma NewVerify_rejects p e :
  snd (Timestamps e) <> None \/
  Z.of_nat (List.length (fst (Timestamps e))) < threshold p ->
  NewVerify' p e =
    ([Call_Timestamps],
     Err (Errorf_not_enough (Z.of_nat (List.length (fst (Timestamps e)))) (threshold p))).
Proof.
  intros H. unfold NewVerify, bind, call.
  destruct (Timestamps e) as [ts err]; simpl in *.
  destruct err as [err|]; simpl.
  - reflexivity.
  - destruct H as [H | H]; [congruence|].
    apply Z.ltb_lt in H. rewrite H. reflexivity.
Qed.

(** Past the threshold check and the two retrievals, the call is the loop. *)
Lemma NewVerify_loop p e ts sc vc :
  Timestamps e = (ts, None) ->
  threshold p <= Z.of_nat (List.length ts) ->
  SignatureContent e = Ok sc ->
  VerificationContent e = Ok vc ->
  value (NewVerify' p e) = value (loop p (GetSignature sc) vc ts []) /\
  calls (NewVerify' p e) =
    [Call_Timestamps; Call_SignatureContent; Call_GetSignature; Call_VerificationContent]
      ++ calls (loop p (GetSignature sc) vc ts []).
Proof.
  intros Hts Hk Hsc Hvc. apply Z.ltb_ge in Hk.
  unfold NewVerify, bind, call. rewrite Hts, Hsc, Hvc. simpl. rewrite Hk.
  destruct (loop p (GetSignature sc) vc ts []); split; reflexivity.
Qed.

Lemma Verify_NewVerify p e :
  calls (Verify' p e) = calls (NewVerify' p e) /\
  value (Verify' p e) =
    match value (NewVerify' p e) with Ok _ => None | Err err => Some err end.
Proof.
  unfold Verify. rewrite calls_bind, value_bind.
  destruct (value (NewVerify' p e)); simpl; rewrite app_nil_r; split; reflexivity.
Qed.

(** C3: when the timestamp list cannot be retrieved, or the number [n] of
    attached tokens is below the threshold [k], both entry points fail with
    the error "not enough signed timestamps: n < k", and the only call made
    on a collaborator is the retrieval of the timestamps: no signature or
    verification content is fetched and no token is verified, whatever the
    primitives would have answered. *)
Theorem not_enough_signed_timestamps
    (p : TimestampAuthorityVerifier) (e : SignedEntity) :
  snd (Timestamps e) <> None \/
  Z.of_nat (List.length (fst (Timestamps e))) < threshold p ->
  let n := Z.of_nat (List.length (fst (Timestamps e))) in
  let k := threshold p in
  NewVerify' p e = ([Call_Timestamps], Err (Errorf_not_enough n k)) /\
  Verify' p e = ([Call_Timestamps], Some (Errorf_not_enough n k)) /\
  Error (Errorf_not_enough n k) =
    ("not enough signed timestamps: " ++ itoa n ++ " < " ++ itoa k)%string.
Proof.
  intros H n k. pose proof (NewVerify_rejects p e H) as HN.
  split; [exact HN|]. split; [|reflexivity].
  unfold Verify. fold n k in HN. rewrite HN. reflexivity.
Qed.

(** C1, as amended: when the timestamp list is retrieved with at least
    [threshold] tokens and the signature content and the verification
    content are retrieved too, one attached token that every candidate
    certificate authority rejects makes both entry points fail with the
    error "unable to verify timestamp"; no verified time is returned,
    however many of the other tokens verify. *)
Theorem one_unverifiable_timestamp_fails_the_call
    (p : TimestampAuthorityVerifier) (e : SignedEntity)
    (ts : list bytes) (sc : SignatureContentT) (vc : bundle.VerificationContent)
    (tok : bytes) :
  Timestamps e = (ts, None) ->
  threshold p <= Z.of_nat (List.length ts) ->
  SignatureContent e = Ok sc ->
  VerificationContent e = Ok vc ->
  In tok ts ->
  (forall ca, In ca (root.TSACertificateAuthorities (trustedMaterial p)) ->
     value (try tok (GetSignature sc) (trustedMaterial p) vc ca) = None) ->
  value (NewVerify' p e) = Err (errors_New "unable to verify timestamp") /\
  value (Verify' p e) = Some (errors_New "unable to verify timestamp").
Proof.
  intros Hts Hk Hsc Hvc Hin Hrej.
  assert (HN : value (NewVerify' p e) = Err (errors_New "unable to verify timestamp")).
  { destruct (NewVerify_loop p e ts sc vc Hts Hk Hsc Hvc) as [-> _].
    apply loop_unverifiable with (tok := tok)
      (e := errors_New "Unable to verify signed timestamps"); [exact Hin|].
    apply search_all_rejected, Hrej. }
  split; [exact HN|].
  destruct (Verify_NewVerify p e) as [_ ->]. rewrite HN. reflexivity.
Qed.

(** C6: tokens are not deduplicated.  For a token that some candidate
    certificate authority accepts, an entity presenting [k] identical
    copies of it to a verifier of threshold [k] passes: the detailed form
    returns [k] copies of the one verified time and [Verify] returns no
    error.  That time is the one the search yields for the token, under a
    candidate of the trust material that passes all four checks with it. *)
Theorem duplicate_timestamps_count
    (p : TimestampAuthorityVerifier) (e : SignedEntity) (k : nat)
    (sc : SignatureContentT) (vc : bundle.VerificationContent)
    (tok : bytes) (ca : root.CertificateAuthority) (T0 : time.Time) :
  (1 <= k)%nat ->
  threshold p = Z.of_nat k ->
  Timestamps e = (repeat tok k, None) ->
  SignatureContent e = Ok sc ->
  VerificationContent e = Ok vc ->
  In ca (root.TSACertificateAuthorities (trustedMaterial p)) ->
  value (try tok (GetSignature sc) (trustedMaterial p) vc ca) = Some T0 ->
  exists T,
    value (search tok (GetSignature sc) (trustedMaterial p) vc) = Ok T /\
    value (NewVerify' p e) = Ok (repeat T k) /\
    value (Verify' p e) = None /\
    exists c, In c (root.TSACertificateAuthorities (trustedMaterial p)) /\
              accepted_by VerifyTimestampResponse Certificate_Verify
                tok (GetSignature sc) (trustedMaterial p) vc c T.
Proof.
  intros _ Hk Hts Hsc Hvc Hin Hca.
  destruct (first_accepted_exists VerifyTimestampResponse Certificate_Verify
              tok (GetSignature sc) vc (trustedMaterial p) _ ca T0 Hin Hca)
    as (pre & c & post & T & Hcas & Hpre & Hc).
  assert (Htok : value (search tok (GetSignature sc) (trustedMaterial p) vc) = Ok T).
  { destruct (search_range VerifyTimestampResponse Certificate_Verify
                tok (GetSignature sc) vc (trustedMaterial p)) as [-> _].
    rewrite Hcas.
    apply (range_first_accepted VerifyTimestampResponse Certificate_Verify
             tok (GetSignature sc) vc (trustedMaterial p) pre c post T Hpre Hc). }
  assert (HN : value (NewVerify' p e) = Ok (repeat T k)).
  { destruct (NewVerify_loop p e (repeat tok k) sc vc Hts) as [-> _];
      [rewrite repeat_length; lia | exact Hsc | exact Hvc |].
    change (repeat T k) with ([] ++ repeat T k). apply loop_all_verified.
    clear Hts Hk. induction k; simpl; constructor; assumption. }
  exists T. split; [exact Htok|]. split; [exact HN|]. split.
  - destruct (Verify_NewVerify p e) as [_ ->]. rewrite HN. reflexivity.
  - exists c. split.
    + rewrite Hcas. apply in_or_app; right; left; reflexivity.
    + apply (try_Some_accepted VerifyTimestampResponse Certificate_Verify
               tok (GetSignature sc) vc (trustedMaterial p) c T Hc).
Qed.

(** C7: when the token count passes the threshold check and both contents
    are retrieved, the detailed form returns a sequence [times] exactly when
    [times] lists, position for position, the time each input token
    verifies with: one time per token, in input order. *)
Theorem verified_times_follow_input_order
    (p : TimestampAuthorityVerifier) (e : SignedEntity)
    (ts : list bytes) (sc : SignatureContentT) (vc : bundle.VerificationContent) :
  Timestamps e = (ts, None) ->
  threshold p <= Z.of_nat (List.length ts) ->
  SignatureContent e = Ok sc ->
  VerificationContent e = Ok vc ->
  forall times,
    value (NewVerify' p e) = Ok times <->
    Forall2 (verifies p (GetSignature sc) vc) ts times.
Proof.
  intros Hts Hk Hsc Hvc times.
  destruct (NewVerify_loop p e ts sc vc Hts Hk Hsc Hvc) as [-> _]. split.
  - intros H. destruct (loop_Ok_inv _ _ _ _ _ _ H) as (times' & -> & Hall). exact Hall.
  - intros H. apply (loop_all_verified _ _ _ _ _ H []).
Qed.

(** C8: [Verify] makes the calls of the detailed form, returns no error
    exactly when the detailed form returns a sequence of times, and returns
    the error [err] exactly when the detailed form fails with [err]. *)
Theorem Verify_is_NewVerify_without_times
    (p : TimestampAuthorityVerifier) (e : SignedEntity) :
  calls (Verify' p e) = calls (NewVerify' p e) /\
  (value (Verify' p e) = None <-> exists times, value (NewVerify' p e) = Ok times) /\
  (forall err, value (Verify' p e) = Some err <-> value (NewVerify' p e) = Err err).
Proof.
  destruct (Verify_NewVerify p e) as [Hc Hv]. rewrite Hv.
  split; [exact Hc|].
  destruct (value (NewVerify' p e)) as [times|err0]; split.
  - split; [intros _; exists times; reflexivity | reflexivity].
  - intros err; split; discriminate.
  - split; [discriminate | intros [times H]; discriminate].
  - intros err; split; intros [= ->]; reflexivity.
Qed.

(** C10: with threshold 0 and an empty, successfully retrieved timestamp
    list the threshold check passes and the call goes on to the signature
    content and then the verification content; it fails with the error of
    the retrieval that fails, and otherwise returns the empty sequence of
    times.  In all three cases no cryptographic primitive is called. *)
Theorem zero_threshold_empty_timestamps
    (p : TimestampAuthorityVerifier) (e : SignedEntity) :
  threshold p = 0 ->
  Timestamps e = ([], None) ->
  NewVerify' p e =
    match SignatureContent e with
    | Err err => ([Call_Timestamps; Call_SignatureContent], Err err)
    | Ok _ =>
      match VerificationContent e with
      | Err err =>
        ([Call_Timestamps; Call_SignatureContent; Call_GetSignature;
          Call_VerificationContent], Err err)
      | Ok _ =>
        ([Call_Timestamps; Call_SignatureContent; Call_GetSignature;
          Call_VerificationContent], Ok [])
      end
    end /\
  existsb is_cryptographic (calls (NewVerify' p e)) = false.
Proof.
  intros Hk Hts.
  assert (H : NewVerify' p e =
    match SignatureContent e with
    | Err err => ([Call_Timestamps; Call_SignatureContent], Err err)
    | Ok _ =>
      match VerificationContent e with
      | Err err =>
        ([Call_Timestamps; Call_SignatureContent; Call_GetSignature;
          Call_VerificationContent], Err err)
      | Ok _ =>
        ([Call_Timestamps; Call_SignatureContent; Call_GetSignature;
          Call_VerificationContent], Ok [])
      end
    end).
  { unfold NewVerify, bind, call. rewrite Hts, Hk. simpl.
    destruct (SignatureContent e); [|reflexivity].
    destruct (VerificationContent e); reflexivity. }
  split; [exact H|]. rewrite H.
  destruct (SignatureContent e); [|reflexivity].
  destruct (VerificationContent e); reflexivity.
Qed.

End WholeCall.

(** ** The claims on the examples *)

Section Examples.

Import fixture.

Local Abbreviation sig := (GetSignature signature).

(** C2: in the window 100..200 of [ca1], [tokenA] states second 150 and
    [tokenE] second 100, the start; [ca2] has no bound set. *)
Lemma validity_window_closed_witness :
  value (tryCertAuthority tsa chain tokenA sig (material [ca1]) signingCert ca1)
    = Some (at_sec 150) /\
  value (tryCertAuthority tsa chain tokenE sig (material [ca1]) signingCert ca1)
    = Some (at_sec 100) /\
  value (tryCertAuthority tsa chain tokenB sig (material [ca2]) signingCert ca2)
    = Some (at_sec 120).
Proof.
  split; [|split].
  - apply (proj1 (validity_window_closed tsa chain tokenA sig (material [ca1])
                    signingCert ca1 {| tsaverification.Time := at_sec 150 |}
                    [[cert x01; cert x01]] eq_refl eq_refl eq_refl)).
    split; right; left; left; simpl; lia.
  - apply (proj1 (validity_window_closed tsa chain tokenE sig (material [ca1])
                    signingCert ca1 {| tsaverification.Time := at_sec 100 |}
                    [[cert x01; cert x01]] eq_refl eq_refl eq_refl)).
    split; right; [right; reflexivity | left; left; simpl; lia].
  - apply (proj1 (validity_window_closed tsa chain tokenB sig (material [ca2])
                    signingCert ca2 {| tsaverification.Time := at_sec 120 |}
                    [[cert x02; cert x02]] eq_refl eq_refl eq_refl)).
    split; left; reflexivity.
Defined.

(** C2 as stated fails: [tokenD] states second 200, the end of the window of
    [ca1], and [ca1] accepts it. *)
Lemma validity_window_end_is_accepted :
  root.ValidityPeriodEnd ca1 = at_sec 200 /\
  time.IsZero (root.ValidityPeriodEnd ca1) = false /\
  tsa tokenD sig (trustedRootVerificationOptions ca1)
    = Ok {| tsaverification.Time := at_sec 200 |} /\
  value (tryCertAuthority tsa chain tokenD sig (material [ca1]) signingCert ca1)
    = Some (at_sec 200) /\
  value (verifySignedTimestamp tsa chain tokenD sig (material [ca1]) signingCert)
    = Ok (at_sec 200).
Proof. repeat split. Qed.

(** C9: [ca1] rejects [tokenC] (second 300 is outside its window), [ca3]
    accepts it at second 50 and [ca2] would accept it at second 150: the
    search returns second 50 and makes no call for [ca2]. *)
Lemma first_accepting_candidate_wins_witness :
  value (tryCertAuthority tsa chain tokenC sig (material [ca1; ca3; ca2]) signingCert ca2)
    = Some (at_sec 150) /\
  value (verifySignedTimestamp tsa chain tokenC sig (material [ca1; ca3; ca2]) signingCert)
    = Ok (at_sec 50) /\
  calls (verifySignedTimestamp tsa chain tokenC sig (material [ca1; ca3; ca2]) signingCert)
    = [ Call_TSACertificateAuthorities;
        Call_VerifyTimestampResponse tokenC sig (trustedRootVerificationOptions ca1);
        Call_Verify (root.Leaf ca1) (verificationOptions ca1 (at_sec 300));
        Call_VerifyTimestampResponse tokenC sig (trustedRootVerificationOptions ca3);
        Call_Verify (root.Leaf ca3) (verificationOptions ca3 (at_sec 50));
        Call_ValidAtTime (at_sec 50) ].
Proof.
  split; [reflexivity|].
  apply (first_accepting_candidate_wins tsa chain tokenC sig
           (material [ca1; ca3; ca2]) signingCert [ca1] [ca2] ca3 (at_sec 50) eq_refl).
  - intros c [<- | []]. reflexivity.
  - reflexivity.
Defined.


(** C5: only [ca1] accepts [tokenA]; it verifies at second 150 with [ca1]
    first and with [ca1] last. *)
Lemma single_match_any_order_witness :
  value (verifySignedTimestamp tsa chain tokenA sig (material [ca1; ca2; ca3]) signingCert)
    = Ok (at_sec 150) /\
  value (verifySignedTimestamp tsa chain tokenA sig (material [ca3; ca2; ca1]) signingCert)
    = Ok (at_sec 150).
Proof.
  apply (single_match_any_order tsa chain tokenA sig
           (material [ca1; ca2; ca3]) (material [ca3; ca2; ca1]) signingCert
           ca1 (at_sec 150)).
  - apply (Permutation_rev [ca1; ca2; ca3]).
  - reflexivity.
  - left; reflexivity.
  - reflexivity.
  - intros c [<- | [<- | [<- | []]]] Hne; [destruct Hne| |]; reflexivity.
Defined.

(** C3: threshold 2 and one attached token. *)
Lemma not_enough_signed_timestamps_witness :
  NewVerify tsa chain (verifier [ca1] 2) (entity [tokenA])
    = ([Call_Timestamps], Err (errors_New "not enough signed timestamps: 1 < 2")) /\
  Verify tsa chain (verifier [ca1] 2) (entity [tokenA])
    = ([Call_Timestamps], Some (errors_New "not enough signed timestamps: 1 < 2")).
Proof.
  assert (H : snd (Timestamps (entity [tokenA])) <> None \/
              Z.of_nat (List.length (fst (Timestamps (entity [tokenA]))))
                < threshold (verifier [ca1] 2)) by (right; simpl; lia).
  destruct (not_enough_signed_timestamps tsa chain (verifier [ca1] 2) (entity [tokenA]) H)
    as (HN & HV & _).
  split; [exact HN | exact HV].
Defined.

(** C1: threshold 1, two tokens that verify and [tokenX], which no
    candidate accepts. *)
Lemma one_unverifiable_timestamp_fails_the_call_witness :
  value (NewVerify tsa chain (verifier [ca1; ca2] 1) (entity [tokenA; tokenB; tokenX]))
    = Err (errors_New "unable to verify timestamp") /\
  value (Verify tsa chain (verifier [ca1; ca2] 1) (entity [tokenA; tokenB; tokenX]))
    = Some (errors_New "unable to verify timestamp").
Proof.
  apply (one_unverifiable_timestamp_fails_the_call tsa chain
           (verifier [ca1; ca2] 1) (entity [tokenA; tokenB; tokenX])
           [tokenA; tokenB; tokenX] signature signingCert tokenX eq_refl).
  - simpl; lia.
  - reflexivity.
  - reflexivity.
  - right; right; left; reflexivity.
  - intros ca [<- | [<- | []]]; reflexivity.
Defined.

(** C1 as stated fails: the timestamp list is retrieved with as many tokens
    as the threshold asks and no candidate accepts [tokenX], whatever the
    signature and the verification content, but the signature content
    cannot be retrieved: the call fails with that retrieval's error. *)
Lemma retrieval_error_precedes_verification :
  Timestamps (unsignedEntity [tokenX]) = ([tokenX], None) /\
  threshold (verifier [ca1] 1) <= Z.of_nat (List.length [tokenX]) /\
  (forall s vc ca,
     In ca (root.TSACertificateAuthorities (trustedMaterial (verifier [ca1] 1))) ->
     value (tryCertAuthority tsa chain tokenX s (trustedMaterial (verifier [ca1] 1)) vc ca)
       = None) /\
  value (NewVerify tsa chain (verifier [ca1] 1) (unsignedEntity [tokenX]))
    = Err (errors_New "no signature in bundle") /\
  value (NewVerify tsa chain (verifier [ca1] 1) (unsignedEntity [tokenX]))
    <> Err (errors_New "unable to verify timestamp") /\
  value (Verify tsa chain (verifier [ca1] 1) (unsignedEntity [tokenX]))
    <> Some (errors_New "unable to verify timestamp").
Proof.
  split; [reflexivity|]. split; [simpl; lia|]. split.
  - intros s vc ca [<- | []]. reflexivity.
  - repeat split; discriminate.
Qed.

(** C6: three copies of [tokenA] meet threshold 3 and give second 150 three
    times. *)
Lemma duplicate_timestamps_count_witness :
  value (verifySignedTimestamp tsa chain tokenA sig
           (trustedMaterial (verifier [ca1; ca2] 3)) signingCert) = Ok (at_sec 150) /\
  value (NewVerify tsa chain (verifier [ca1; ca2] 3) (entity [tokenA; tokenA; tokenA]))
    = Ok [at_sec 150; at_sec 150; at_sec 150] /\
  value (Verify tsa chain (verifier [ca1; ca2] 3) (entity [tokenA; tokenA; tokenA]))
    = None /\
  exists c, In c [ca1; ca2] /\
            accepted_by tsa chain tokenA sig (trustedMaterial (verifier [ca1; ca2] 3))
              signingCert c (at_sec 150).
Proof.
  destruct (duplicate_timestamps_count tsa chain (verifier [ca1; ca2] 3)
              (entity [tokenA; tokenA; tokenA]) 3 signature signingCert tokenA ca1
              (at_sec 150) ltac:(lia) eq_refl eq_refl eq_refl eq_refl
              (or_introl eq_refl) eq_refl)
    as (T & Hsearch & HN & HV & Hacc).
  assert (HT : T = at_sec 150)
    by (vm_compute in Hsearch; injection Hsearch as <-; reflexivity).
  subst T. split; [exact Hsearch|]. split; [exact HN|]. split; [exact HV | exact Hacc].
Defined.

(** C7: [tokenA] verifies at second 150 and [tokenB] at second 120; the
    times come back in the order of the tokens, the later one first. *)
Lemma verified_times_follow_input_order_witness :
  value (NewVerify tsa chain (verifier [ca1; ca2] 2) (entity [tokenA; tokenB]))
    = Ok [at_sec 150; at_sec 120].
Proof.
  apply (proj2 (verified_times_follow_input_order tsa chain (verifier [ca1; ca2] 2)
                  (entity [tokenA; tokenB]) [tokenA; tokenB] signature signingCert
                  eq_refl ltac:(simpl; lia) eq_refl eq_refl [at_sec 150; at_sec 120])).
  repeat constructor.
Defined.

(** C10: threshold 0 and no token: four retrievals, no verification. *)
Lemma zero_threshold_empty_timestamps_witness :
  NewVerify tsa chain (verifier [ca1] 0) (entity [])
    = ([Call_Timestamps; Call_SignatureContent; Call_GetSignature;
        Call_VerificationContent], Ok []) /\
  NewVerify tsa chain (verifier [ca1] 0) (unsignedEntity [])
    = ([Call_Timestamps; Call_SignatureContent],
       Err (errors_New "no signature in bundle")).
Proof.
  split.
  - apply (proj1 (zero_threshold_empty_timestamps tsa chain (verifier [ca1] 0)
                    (entity []) eq_refl eq_refl)).
  - apply (proj1 (zero_threshold_empty_timestamps tsa chain (verifier [ca1] 0)
                    (unsignedEntity []) eq_refl eq_refl)).
Defined.

End Examples.

(** * Further properties of the search *)

Lemma lt_before_or_after (S E T : time.Time) :
  time.lt E S -> time.lt T S \/ time.lt E T.
Proof.
  unfold time.lt. destruct S as [s n], E as [s' n'], T as [s'' n'']; simpl. lia.
Qed.

Lemma window_checks_pass (ca : root.CertificateAuthority) (T : time.Time) :
  (negb (time.IsZero (root.ValidityPeriodStart ca))
     && time.Before T (root.ValidityPeriodStart ca) = false /\
   negb (time.IsZero (root.ValidityPeriodEnd ca))
     && time.After T (root.ValidityPeriodEnd ca) = false)
  <-> within_validity_period ca T.
Proof.
  unfold within_validity_period.
  rewrite !andb_false_iff, !negb_false_iff, Before_false_le, After_false_le. tauto.
Qed.

Lemma intermediates_pool_from_candidate (ca : root.CertificateAuthority) cert :
  In cert (tsaIntermediateCertPool ca) -> In cert (root.Intermediates ca).
Proof.
  unfold tsaIntermediateCertPool.
  assert (H : forall l pool,
            In cert (fold_left x509.AddCert l pool) -> In cert pool \/ In cert l).
  { induction l as [|c l IH]; intros pool Hin; [left; exact Hin|].
    simpl in Hin. apply IH in Hin. destruct Hin as [Hin | Hin]; [|right; right; exact Hin].
    unfold x509.AddCert in Hin. destruct (existsb _ pool); [left; exact Hin|].
    apply in_app_or in Hin. destruct Hin as [Hin | [<- | []]];
      [left; exact Hin | right; left; reflexivity]. }
  intros Hin. apply H in Hin. destruct Hin as [[] | Hin]. exact Hin.
Qed.

Section Acceptance.

Variable VerifyTimestampResponse :
  bytes -> bytes -> tsaverification.VerifyOpts -> result tsaverification.Timestamp.
Variable Certificate_Verify :
  x509.Certificate -> x509.VerifyOptions -> result (list (list x509.Certificate)).

Variables (signedTimestamp dsseSignatureBytes : bytes).
Variable verificationContent : bundle.VerificationContent.

Local Abbreviation try tm :=
  (tryCertAuthority VerifyTimestampResponse Certificate_Verify
     signedTimestamp dsseSignatureBytes tm verificationContent).
Local Abbreviation range tm :=
  (rangeCertAuthorities VerifyTimestampResponse Certificate_Verify
     signedTimestamp dsseSignatureBytes tm verificationContent).
Local Abbreviation search tm :=
  (verifySignedTimestamp VerifyTimestampResponse Certificate_Verify
     signedTimestamp dsseSignatureBytes tm verificationContent).
Local Abbreviation accepted tm :=
  (accepted_by VerifyTimestampResponse Certificate_Verify
     signedTimestamp dsseSignatureBytes tm verificationContent).

(** The loop body, check by check. *)
Ltac by_checks :=
  unfold tryCertAuthority, bind, call, ret;
  destruct (VerifyTimestampResponse _ _ _) as [timestamp|] eqn:Hvtr;
    [destruct (Certificate_Verify _ _) as [chains|] eqn:Hcv;
      [destruct (negb _ && time.Before _ _) eqn:Hstart;
        [|destruct (negb _ && time.After _ _) eqn:Hend;
          [|destruct (bundle.ValidAtTime _ _ _) eqn:Hvalid]]|]|];
  simpl.

Lemma try_accepted tm ca T :
  value (try tm ca) = Some T <-> accepted tm ca T.
Proof.
  unfold accepted_by. split.
  - by_checks; try discriminate. intros [= <-].
    exists timestamp, chains. repeat split; try assumption.
    + apply window_checks_pass. split; assumption.
    + apply window_checks_pass. split; assumption.
  - intros (timestamp & chains & Hvtr & <- & Hcv & Hwin & Hvalid).
    apply window_checks_pass in Hwin. destruct Hwin as [Hstart Hend].
    unfold tryCertAuthority, bind, call, ret.
    rewrite Hvtr, Hcv, Hstart, Hend, Hvalid. reflexivity.
Qed.

Lemma range_Ok_inv tm cas T :
  value (range tm cas) = Ok T ->
  exists pre ca post,
    cas = pre ++ ca :: post /\
    (forall c, In c pre -> value (try tm c) = None) /\
    value (try tm ca) = Some T.
Proof.
  induction cas as [|h rest IH]; simpl; [discriminate|].
  rewrite value_bind. destruct (value (try tm h)) as [T'|] eqn:Hh.
  - intros [= <-]. exists [], h, rest. repeat split; [intros c []| exact Hh].
  - intros Hrest. destruct (IH Hrest) as (pre & ca & post & -> & Hpre & Hca).
    exists (h :: pre), ca, post. repeat split; [|exact Hca].
    intros c [<- | Hc]; [exact Hh | apply Hpre, Hc].
Qed.

Lemma range_Err_inv tm cas e :
  value (range tm cas) = Err e ->
  e = errors_New "Unable to verify signed timestamps" /\
  forall c, In c cas -> value (try tm c) = None.
Proof.
  induction cas as [|h rest IH]; simpl.
  - intros [= <-]. split; [reflexivity | intros c []].
  - rewrite value_bind. destruct (value (try tm h)) as [T'|] eqn:Hh; [discriminate|].
    intros Hrest. destruct (IH Hrest) as [-> Hall]. split; [reflexivity|].
    intros c [<- | Hc]; [exact Hh | apply Hall, Hc].
Qed.

Lemma range_same_cross_check tm tm' cas :
  (forall t, bundle.ValidAtTime verificationContent t tm'
             = bundle.ValidAtTime verificationContent t tm) ->
  range tm' cas = range tm cas.
Proof.
  intros H. induction cas as [|h rest IH]; simpl; [reflexivity|].
  rewrite (try_same_cross_check _ _ _ _ _ tm tm' h H), IH. reflexivity.
Qed.

Lemma range_app_accepted tm cas extra T :
  value (range tm cas) = Ok T -> value (range tm (cas ++ extra)) = Ok T.
Proof.
  intros H. destruct (range_Ok_inv tm cas T H) as (pre & ca & post & -> & Hpre & Hca).
  rewrite <- app_assoc. simpl.
  apply (range_first_accepted _ _ _ _ _ tm pre ca (post ++ extra) T Hpre Hca).
Qed.

(** X1: a candidate accepts the token with time [T] exactly when the token
    verifies cryptographically under the candidate's options with time [T],
    the leaf chains at [T], [T] lies in the candidate's validity period and
    the verification content is valid at [T]. *)
Theorem candidate_accepts_iff (tm : root.TrustedMaterial)
    (ca : root.CertificateAuthority) (T : time.Time) :
  value (try tm ca) = Some T <->
  exists timestamp chains,
    VerifyTimestampResponse signedTimestamp dsseSignatureBytes
      (trustedRootVerificationOptions ca) = Ok timestamp /\
    tsaverification.Time timestamp = T /\
    Certificate_Verify (root.Leaf ca) (verificationOptions ca T) = Ok chains /\
    ((time.IsZero (root.ValidityPeriodStart ca) = true
        \/ time.le (root.ValidityPeriodStart ca) T) /\
     (time.IsZero (root.ValidityPeriodEnd ca) = true
        \/ time.le T (root.ValidityPeriodEnd ca))) /\
    bundle.ValidAtTime verificationContent T tm = true.
Proof.
  split.
  - by_checks; try discriminate. intros [= <-].
    exists timestamp, chains. repeat split; try assumption;
      apply (window_checks_pass ca (tsaverification.Time timestamp)); split; assumption.
  - intros (timestamp & chains & Hvtr & <- & Hcv & Hwin & Hvalid).
    apply (window_checks_pass ca (tsaverification.Time timestamp)) in Hwin.
    destruct Hwin as [Hstart Hend].
    unfold tryCertAuthority, bind, call, ret.
    rewrite Hvtr, Hcv, Hstart, Hend, Hvalid. reflexivity.
Qed.

(** X2: a time the search returns is backed by a candidate of the trust
    material that passes all four checks with that time. *)
Theorem verified_time_has_accepting_candidate (tm : root.TrustedMaterial) (T : time.Time) :
  value (search tm) = Ok T ->
  exists ca, In ca (root.TSACertificateAuthorities tm) /\ accepted tm ca T.
Proof.
  destruct (search_range VerifyTimestampResponse Certificate_Verify
              signedTimestamp dsseSignatureBytes verificationContent tm) as [-> _].
  intros H. destruct (range_Ok_inv tm _ T H) as (pre & ca & post & Hcas & _ & Hca).
  exists ca. split; [|apply try_accepted, Hca].
  rewrite Hcas. apply in_or_app; right; left; reflexivity.
Qed.

(** X3: the search fails exactly when every candidate of the trust material
    rejects the token, and its error is then always
    "Unable to verify signed timestamps". *)
Theorem search_fails_iff_all_reject (tm : root.TrustedMaterial) :
  ((exists e, value (search tm) = Err e) <->
   forall ca T, In ca (root.TSACertificateAuthorities tm) -> ~ accepted tm ca T) /\
  (forall e, value (search tm) = Err e ->
             e = errors_New "Unable to verify signed timestamps").
Proof.
  destruct (search_range VerifyTimestampResponse Certificate_Verify
              signedTimestamp dsseSignatureBytes verificationContent tm) as [-> _].
  split; [split|].
  - intros [e He] ca T Hin Hacc. apply try_accepted in Hacc.
    destruct (range_Err_inv tm _ e He) as [_ Hall]. rewrite (Hall ca Hin) in Hacc.
    discriminate.
  - intros Hall. exists (errors_New "Unable to verify signed timestamps").
    apply range_all_rejected. intros c Hc.
    destruct (value (try tm c)) as [T|] eqn:Hv; [|reflexivity].
    exfalso. apply (Hall c T Hc), try_accepted, Hv.
  - intros e He. apply (range_Err_inv tm _ e He).
Qed.

(** X12: a candidate whose validity period is inverted (both bounds set, the
    end before the start) accepts no token, whatever the primitives answer. *)
Theorem inverted_window_rejects (tm : root.TrustedMaterial)
    (ca : root.CertificateAuthority) :
  time.IsZero (root.ValidityPeriodStart ca) = false ->
  time.IsZero (root.ValidityPeriodEnd ca) = false ->
  time.lt (root.ValidityPeriodEnd ca) (root.ValidityPeriodStart ca) ->
  value (try tm ca) = None.
Proof.
  intros HS HE Hinv.
  destruct (value (try tm ca)) as [T|] eqn:Hv; [|reflexivity].
  apply try_accepted in Hv.
  destruct Hv as (_ & _ & _ & _ & _ & [[Hs | Hs] [He | He]] & _); try congruence.
  apply not_lt_le in Hs. apply not_lt_le in He.
  destruct (lt_before_or_after _ _ T Hinv); contradiction.
Qed.

(** X13: candidates added behind the ones of the trust material never turn
    a verified token into an unverified one, nor change its time, as long as
    the content cross-check answers alike for the enlarged trust material. *)
Theorem appended_candidates_preserve_success
    (tm tm' : root.TrustedMaterial) (extra : list root.CertificateAuthority)
    (T : time.Time) :
  root.TSACertificateAuthorities tm' = root.TSACertificateAuthorities tm ++ extra ->
  (forall t, bundle.ValidAtTime verificationContent t tm'
             = bundle.ValidAtTime verificationContent t tm) ->
  value (search tm) = Ok T ->
  value (search tm') = Ok T.
Proof.
  intros Hcas Hsame.
  destruct (search_range VerifyTimestampResponse Certificate_Verify
              signedTimestamp dsseSignatureBytes verificationContent tm) as [-> _].
  destruct (search_range VerifyTimestampResponse Certificate_Verify
              signedTimestamp dsseSignatureBytes verificationContent tm') as [-> _].
  rewrite Hcas, (range_same_cross_check tm tm' _ Hsame). apply range_app_accepted.
Qed.

(** X14: listing again, behind the others, candidates the trust material
    already holds changes neither the success nor the time nor the error of
    the search (the content cross-check answering alike for both). *)
Theorem repeated_candidates_change_nothing
    (tm tm' : root.TrustedMaterial) (extra : list root.CertificateAuthority) :
  root.TSACertificateAuthorities tm' = root.TSACertificateAuthorities tm ++ extra ->
  (forall c, In c extra -> In c (root.TSACertificateAuthorities tm)) ->
  (forall t, bundle.ValidAtTime verificationContent t tm'
             = bundle.ValidAtTime verificationContent t tm) ->
  value (search tm') = value (search tm).
Proof.
  intros Hcas Hextra Hsame.
  destruct (search_range VerifyTimestampResponse Certificate_Verify
              signedTimestamp dsseSignatureBytes verificationContent tm) as [-> _].
  destruct (search_range VerifyTimestampResponse Certificate_Verify
              signedTimestamp dsseSignatureBytes verificationContent tm') as [-> _].
  rewrite Hcas, (range_same_cross_check tm tm' _ Hsame).
  destruct (value (range tm (root.TSACertificateAuthorities tm))) as [T|e] eqn:Hv.
  - apply range_app_accepted, Hv.
  - destruct (range_Err_inv tm _ e Hv) as [-> Hall].
    apply range_all_rejected. intros c Hc. apply in_app_or in Hc.
    destruct Hc as [Hc | Hc]; [apply Hall, Hc | apply Hall, Hextra, Hc].
Qed.

Lemma search_sound tm T :
  value (search tm) = Ok T ->
  exists ca, In ca (root.TSACertificateAuthorities tm) /\ accepted tm ca T.
Proof.
  destruct (search_range VerifyTimestampResponse Certificate_Verify
              signedTimestamp dsseSignatureBytes verificationContent tm) as [-> _].
  intros H. destruct (range_Ok_inv tm _ T H) as (pre & ca & post & Hcas & _ & Hca).
  exists ca. split; [|apply try_accepted, Hca].
  rewrite Hcas. apply in_or_app; right; left; reflexivity.
Qed.

Lemma search_Err_inv tm e :
  value (search tm) = Err e -> e = errors_New "Unable to verify signed timestamps".
Proof.
  destruct (search_range VerifyTimestampResponse Certificate_Verify
              signedTimestamp dsseSignatureBytes verificationContent tm) as [-> _].
  intros H. apply (range_Err_inv tm _ e H).
Qed.

(** *** The calls of the search *)

Lemma try_calls_for_candidate tm ca :
  Forall (call_for_candidate signedTimestamp dsseSignatureBytes ca) (calls (try tm ca)).
Proof.
  assert (Hverify : forall t,
    call_for_candidate signedTimestamp dsseSignatureBytes ca
      (Call_Verify (root.Leaf ca) (verificationOptions ca t))).
  { intros t. simpl. repeat split. apply intermediates_pool_from_candidate. }
  assert (Htsa :
    call_for_candidate signedTimestamp dsseSignatureBytes ca
      (Call_VerifyTimestampResponse signedTimestamp dsseSignatureBytes
         (trustedRootVerificationOptions ca))).
  { simpl. repeat split. }
  by_checks; unfold calls; simpl; repeat (constructor; auto); exact I.
Qed.

Lemma try_calls_length tm ca : (List.length (calls (try tm ca)) <= 3)%nat.
Proof. by_checks; unfold calls; simpl; lia. Qed.

Lemma range_calls_from_candidates tm cas c :
  In c (calls (range tm cas)) -> exists ca, In ca cas /\ In c (calls (try tm ca)).
Proof.
  induction cas as [|h rest IH]; simpl; [intros []|].
  rewrite calls_bind. intros Hin. apply in_app_or in Hin. destruct Hin as [Hin | Hin].
  - exists h. split; [left; reflexivity | exact Hin].
  - destruct (value (try tm h)); [destruct Hin|].
    destruct (IH Hin) as (ca & Hca & Hc). exists ca. split; [right; exact Hca | exact Hc].
Qed.

Lemma range_calls_length tm cas :
  (List.length (calls (range tm cas)) <= 3 * List.length cas)%nat.
Proof.
  induction cas as [|h rest IH]; simpl; [lia|].
  rewrite calls_bind, length_app. pose proof (try_calls_length tm h).
  destruct (value (try tm h)); simpl in *; lia.
Qed.

Lemma search_calls_length tm :
  (List.length (calls (search tm))
   <= 1 + 3 * List.length (root.TSACertificateAuthorities tm))%nat.
Proof.
  destruct (search_range VerifyTimestampResponse Certificate_Verify
              signedTimestamp dsseSignatureBytes verificationContent tm) as [_ ->].
  pose proof (range_calls_length tm (root.TSACertificateAuthorities tm)).
  simpl List.length. lia.
Qed.

(** The trust material is asked for its candidates once in a search. *)
Lemma search_queries_once tm :
  filter is_TSACertificateAuthorities (calls (search tm))
    = [Call_TSACertificateAuthorities].
Proof.
  destruct (search_range VerifyTimestampResponse Certificate_Verify
              signedTimestamp dsseSignatureBytes verificationContent tm) as [_ ->].
  simpl. f_equal.
  assert (H : forall c, In c (calls (range tm (root.TSACertificateAuthorities tm))) ->
                        is_TSACertificateAuthorities c = false).
  { intros c Hc. destruct (range_calls_from_candidates tm _ c Hc) as (ca & _ & Hin).
    pose proof (try_calls_for_candidate tm ca) as Hall.
    rewrite Forall_forall in Hall. specialize (Hall c Hin).
    destruct c; simpl in *; try reflexivity; contradiction. }
  induction (calls (range tm (root.TSACertificateAuthorities tm))) as [|c l IH];
    [reflexivity|].
  simpl. rewrite (H c (or_introl eq_refl)). apply IH.
  intros c' Hc'. apply H. right; exact Hc'.
Qed.

(** X10: apart from asking the trust material for its candidates, every call
    of the search is made for one candidate of the trust material: the
    timestamp primitive gets the token and the signature passed in and
    options built from that candidate alone; the chain verifier gets that
    candidate's leaf, a root pool holding its root only, intermediates taken
    from its intermediates only, and the time-stamping key usage.  No entity
    accessor is called. *)
Theorem calls_confined_to_candidates (tm : root.TrustedMaterial) :
  Forall (fun c =>
            c = Call_TSACertificateAuthorities \/
            exists ca, In ca (root.TSACertificateAuthorities tm) /\
                       call_for_candidate signedTimestamp dsseSignatureBytes ca c)
         (calls (search tm)).
Proof.
  destruct (search_range VerifyTimestampResponse Certificate_Verify
              signedTimestamp dsseSignatureBytes verificationContent tm) as [_ ->].
  constructor; [left; reflexivity|].
  apply Forall_forall. intros c Hc. right.
  destruct (range_calls_from_candidates tm _ c Hc) as (ca & Hca & Hin).
  exists ca. split; [exact Hca|].
  pose proof (try_calls_for_candidate tm ca) as Hall.
  rewrite Forall_forall in Hall. apply Hall, Hin.
Qed.

(** X11: the later checks are gated by the earlier ones.  The chain verifier
    is only run at a time the token states under a candidate whose
    cryptographic verification succeeded, and the verification content is
    only asked about a time that a candidate verified cryptographically,
    chained at, and found inside its validity period. *)
Theorem later_checks_are_gated (tm : root.TrustedMaterial) :
  (forall leaf opts,
     In (Call_Verify leaf opts) (calls (search tm)) ->
     exists ca timestamp,
       In ca (root.TSACertificateAuthorities tm) /\
       VerifyTimestampResponse signedTimestamp dsseSignatureBytes
         (trustedRootVerificationOptions ca) = Ok timestamp /\
       leaf = root.Leaf ca /\
       opts = verificationOptions ca (tsaverification.Time timestamp)) /\
  (forall T,
     In (Call_ValidAtTime T) (calls (search tm)) ->
     exists ca timestamp chains,
       In ca (root.TSACertificateAuthorities tm) /\
       VerifyTimestampResponse signedTimestamp dsseSignatureBytes
         (trustedRootVerificationOptions ca) = Ok timestamp /\
       tsaverification.Time timestamp = T /\
       Certificate_Verify (root.Leaf ca) (verificationOptions ca T) = Ok chains /\
       within_validity_period ca T).
Proof.
  destruct (search_range VerifyTimestampResponse Certificate_Verify
              signedTimestamp dsseSignatureBytes verificationContent tm) as [_ ->].
  split.
  - intros leaf opts [Hin | Hin]; [discriminate|].
    destruct (range_calls_from_candidates tm _ _ Hin) as (ca & Hca & Hc).
    exists ca. revert Hc. by_checks; unfold calls; simpl; intros Hc;
      repeat (destruct Hc as [Hc | Hc]; try discriminate; try contradiction);
      injection Hc as <- <-; exists timestamp; repeat split; assumption.
  - intros T [Hin | Hin]; [discriminate|].
    destruct (range_calls_from_candidates tm _ _ Hin) as (ca & Hca & Hc).
    exists ca. revert Hc. by_checks; unfold calls; simpl; intros Hc;
      repeat (destruct Hc as [Hc | Hc]; try discriminate; try contradiction);
      injection Hc as <-; exists timestamp, chains; repeat split; try assumption;
      apply window_checks_pass; split; assumption.
Qed.

End Acceptance.

(** * Further properties of the whole call *)

Section Call.

Variable VerifyTimestampResponse :
  bytes -> bytes -> tsaverification.VerifyOpts -> result tsaverification.Timestamp.
Variable Certificate_Verify :
  x509.Certificate -> x509.VerifyOptions -> result (list (list x509.Certificate)).

Local Abbreviation search :=
  (verifySignedTimestamp VerifyTimestampResponse Certificate_Verify).
Local Abbreviation loop :=
  (rangeSignedTimestamps VerifyTimestampResponse Certificate_Verify).
Local Abbreviation NewVerify' :=
  (NewVerify VerifyTimestampResponse Certificate_Verify).
Local Abbreviation accepted :=
  (accepted_by VerifyTimestampResponse Certificate_Verify).
Local Abbreviation verifies p sig vc :=
  (fun tok T => value (search tok sig (trustedMaterial p) vc) = Ok T).
Local Abbreviation retrievals :=
  [Call_Timestamps; Call_SignatureContent; Call_GetSignature; Call_VerificationContent].

(** The four ways through [NewVerify]. *)
Lemma NewVerify_inv p e :
  ((snd (Timestamps e) <> None \/
    Z.of_nat (List.length (fst (Timestamps e))) < threshold p) /\
   NewVerify' p e =
     ([Call_Timestamps],
      Err (Errorf_not_enough (Z.of_nat (List.length (fst (Timestamps e))))
             (threshold p)))) \/
  (snd (Timestamps e) = None /\
   threshold p <= Z.of_nat (List.length (fst (Timestamps e))) /\
   ((exists err, SignatureContent e = Err err /\
                 NewVerify' p e = ([Call_Timestamps; Call_SignatureContent], Err err)) \/
    (exists sc err, SignatureContent e = Ok sc /\ VerificationContent e = Err err /\
                    NewVerify' p e = (retrievals, Err err)) \/
    (exists sc vc, SignatureContent e = Ok sc /\ VerificationContent e = Ok vc /\
                   NewVerify' p e =
                     (retrievals ++ calls (loop p (GetSignature sc) vc
                                             (fst (Timestamps e)) []),
                      value (loop p (GetSignature sc) vc (fst (Timestamps e)) []))))).
Proof.
  destruct (Timestamps e) as [ts [err|]] eqn:Hts; simpl.
  - left. split; [left; discriminate|].
    unfold NewVerify, bind, call. rewrite Hts. reflexivity.
  - destruct (Z.ltb_spec (Z.of_nat (List.length ts)) (threshold p)) as [Hk | Hk].
    + left. split; [right; exact Hk|].
      apply Z.ltb_lt in Hk. unfold NewVerify, bind, call. rewrite Hts. simpl.
      rewrite Hk. reflexivity.
    + right. split; [reflexivity|]. split; [exact Hk|].
      apply Z.ltb_ge in Hk. unfold NewVerify, bind, call. rewrite Hts. simpl.
      rewrite Hk.
      destruct (SignatureContent e) as [sc|err]; [|left; exists err; split; reflexivity].
      right. destruct (VerificationContent e) as [vc|err].
      * right. exists sc, vc. split; [reflexivity|]. split; [reflexivity|].
        destruct (loop p (GetSignature sc) vc ts []); reflexivity.
      * left. exists sc, err. repeat split.
Qed.

Lemma loop_Err_inv p sig vc ts :
  forall acc err, value (loop p sig vc ts acc) = Err err ->
                  err = errors_New "unable to verify timestamp".
Proof.
  induction ts as [|tok ts IH]; intros acc err; simpl; [discriminate|].
  rewrite value_bind.
  destruct (value (search tok sig (trustedMaterial p) vc)); [apply IH|].
  intros [= <-]. reflexivity.
Qed.

Lemma loop_calls_verified p sig vc ts times :
  Forall2 (verifies p sig vc) ts times ->
  forall acc,
    calls (loop p sig vc ts acc)
      = flat_map (fun tok => calls (search tok sig (trustedMaterial p) vc)) ts.
Proof.
  induction 1 as [|tok T ts times Htok _ IH]; intros acc; simpl; [reflexivity|].
  rewrite calls_bind, Htok, IH. reflexivity.
Qed.

(** The loop stops at the first token that does not verify. *)
Lemma loop_stops p sig vc pre times tok post err :
  Forall2 (verifies p sig vc) pre times ->
  value (search tok sig (trustedMaterial p) vc) = Err err ->
  forall acc,
    loop p sig vc (pre ++ tok :: post) acc
      = (flat_map (fun t => calls (search t sig (trustedMaterial p) vc)) (pre ++ [tok]),
         Err (errors_New "unable to verify timestamp")).
Proof.
  intros Hpre Htok. induction Hpre as [|t T pre times Ht _ IH]; intros acc.
  - rewrite (M_eq (loop _ _ _ _ _)). simpl.
    rewrite calls_bind, value_bind, Htok. simpl. rewrite !app_nil_r. reflexivity.
  - rewrite (M_eq (loop _ _ _ _ _)). simpl.
    rewrite calls_bind, value_bind, Ht, IH. reflexivity.
Qed.

Lemma loop_calls_length p sig vc ts :
  forall acc,
    (List.length (calls (loop p sig vc ts acc))
     <= List.length ts
        * (1 + 3 * List.length (root.TSACertificateAuthorities (trustedMaterial p))))%nat.
Proof.
  induction ts as [|tok ts IH]; intros acc; simpl; [lia|].
  rewrite calls_bind, length_app.
  pose proof (search_calls_length VerifyTimestampResponse Certificate_Verify
                tok sig vc (trustedMaterial p)) as Hs.
  destruct (value (search tok sig (trustedMaterial p) vc)).
  - specialize (IH (acc ++ [a])). lia.
  - simpl. lia.
Qed.

Lemma loop_same_material p p' sig vc ts :
  trustedMaterial p' = trustedMaterial p ->
  forall acc, loop p' sig vc ts acc = loop p sig vc ts acc.
Proof.
  intros Htm. induction ts as [|tok ts IH]; intros acc; simpl; [reflexivity|].
  rewrite Htm. unfold bind.
  destruct (search tok sig (trustedMaterial p) vc) as [t [T|err]]; [|reflexivity].
  rewrite IH. reflexivity.
Qed.

(** Verifying is a function of the token. *)
Lemma verifies_map p sig vc ts times :
  Forall2 (verifies p sig vc) ts times ->
  times = map (fun tok => match value (search tok sig (trustedMaterial p) vc) with
                          | Ok T => T
                          | Err _ => time.zero
                          end) ts.
Proof.
  induction 1 as [|tok T ts times Htok _ IH]; simpl; [reflexivity|].
  rewrite Htok, <- IH. reflexivity.
Qed.

Lemma verifies_of_map p sig vc ts :
  (forall tok, In tok ts -> exists T, verifies p sig vc tok T) ->
  Forall2 (verifies p sig vc) ts
    (map (fun tok => match value (search tok sig (trustedMaterial p) vc) with
                     | Ok T => T
                     | Err _ => time.zero
                     end) ts).
Proof.
  induction ts as [|tok ts IH]; intros Hall; simpl; constructor.
  - destruct (Hall tok (or_introl eq_refl)) as [T HT]. rewrite HT. reflexivity.
  - apply IH. intros t Ht. apply Hall. right; exact Ht.
Qed.

Lemma verifies_In p sig vc ts times tok :
  Forall2 (verifies p sig vc) ts times -> In tok ts ->
  exists T, verifies p sig vc tok T.
Proof.
  induction 1 as [|t T ts times Ht _ IH]; intros Hin; [destruct Hin|].
  destruct Hin as [<- | Hin]; [exists T; exact Ht | apply IH, Hin].
Qed.

(** X4: when the detailed form succeeds, the timestamp list was retrieved
    without error, there is one returned time per attached token and at
    least [threshold] of them, and every returned time is backed, for the
    token at its position, by a candidate of the trust material that passes
    all four checks with that time. *)
Theorem success_is_sound (p : TimestampAuthorityVerifier) (e : SignedEntity)
    (times : list time.Time) :
  value (NewVerify' p e) = Ok times ->
  snd (Timestamps e) = None /\
  threshold p <= Z.of_nat (List.length times) /\
  List.length times = List.length (fst (Timestamps e)) /\
  exists sc vc,
    SignatureContent e = Ok sc /\ VerificationContent e = Ok vc /\
    Forall2 (fun tok T =>
               exists ca, In ca (root.TSACertificateAuthorities (trustedMaterial p)) /\
                          accepted tok (GetSignature sc) (trustedMaterial p) vc ca T)
            (fst (Timestamps e)) times.
Proof.
  intros Hok.
  destruct (NewVerify_inv p e)
    as [[_ H] | (Herr & Hk & [(err & _ & H) | [(sc & err & _ & _ & H)
                                              | (sc & vc & Hsc & Hvc & H)]])];
    rewrite H in Hok; try discriminate.
  unfold value in Hok; simpl in Hok. fold (value (loop p (GetSignature sc) vc
                                                   (fst (Timestamps e)) [])) in Hok.
  destruct (loop_Ok_inv _ _ _ _ _ _ _ _ Hok) as (times' & -> & Hall). simpl.
  pose proof (Forall2_length Hall) as Hlen.
  split; [exact Herr|]. split; [rewrite <- Hlen; exact Hk|].
  split; [symmetry; exact Hlen|].
  exists sc, vc. split; [exact Hsc|]. split; [exact Hvc|].
  clear Hlen Hok H Hk. induction Hall as [|tok T ts times Htok _ IH]; constructor.
  - apply (search_sound _ _ _ _ _ _ _ Htok).
  - exact IH.
Qed.

(** X5: the errors of the detailed form are of four kinds only: the
    "not enough signed timestamps" error with the observed and the required
    count, the error of the signature-content retrieval, the error of the
    verification-content retrieval, and "unable to verify timestamp".  The
    error of the search itself is never passed on. *)
Theorem errors_are_of_four_kinds (p : TimestampAuthorityVerifier) (e : SignedEntity)
    (err : error) :
  value (NewVerify' p e) = Err err ->
  err = Errorf_not_enough (Z.of_nat (List.length (fst (Timestamps e)))) (threshold p) \/
  SignatureContent e = Err err \/
  VerificationContent e = Err err \/
  err = errors_New "unable to verify timestamp".
Proof.
  intros Herr.
  destruct (NewVerify_inv p e)
    as [[_ H] | (_ & _ & [(err' & Hsc & H) | [(sc & err' & _ & Hvc & H)
                                             | (sc & vc & _ & _ & H)]])];
    rewrite H in Herr; unfold value in Herr; simpl in Herr.
  - left. congruence.
  - right; left. congruence.
  - right; right; left. congruence.
  - right; right; right. apply (loop_Err_inv _ _ _ _ _ _ Herr).
Qed.

(** X6: lowering the threshold never turns a success into a failure: a
    verifier with the same trust material and a threshold that is not
    larger makes the same calls and returns the same times. *)
Theorem lower_threshold_keeps_success (p p' : TimestampAuthorityVerifier)
    (e : SignedEntity) (times : list time.Time) :
  trustedMaterial p' = trustedMaterial p ->
  threshold p' <= threshold p ->
  value (NewVerify' p e) = Ok times ->
  NewVerify' p' e = NewVerify' p e.
Proof.
  intros Htm Hle Hok.
  destruct (NewVerify_inv p e)
    as [[_ H] | (Herr & Hk & [(err & _ & H) | [(sc & err & _ & _ & H)
                                              | (sc & vc & Hsc & Hvc & H)]])];
    rewrite H in Hok; try discriminate.
  rewrite H.
  destruct (Timestamps e) as [ts oerr] eqn:Hts. simpl in Herr, Hk. subst oerr.
  destruct (NewVerify_loop VerifyTimestampResponse Certificate_Verify
              p' e ts sc vc Hts) as [Hv Hc]; [lia | exact Hsc | exact Hvc |].
  rewrite (M_eq (NewVerify' p' e)), Hv, Hc.
  rewrite (loop_same_material p p' _ _ _ Htm). reflexivity.
Qed.

(** X7: the call stops at the first token that does not verify: the calls
    made are the four retrievals and the searches for the tokens up to and
    including that one, and nothing is done for the tokens after it. *)
Theorem stops_at_first_unverifiable_token
    (p : TimestampAuthorityVerifier) (e : SignedEntity)
    (pre post : list bytes) (tok : bytes) (times : list time.Time)
    (sc : SignatureContentT) (vc : bundle.VerificationContent) (err : error) :
  Timestamps e = (pre ++ tok :: post, None) ->
  threshold p <= Z.of_nat (List.length (pre ++ tok :: post)) ->
  SignatureContent e = Ok sc ->
  VerificationContent e = Ok vc ->
  Forall2 (verifies p (GetSignature sc) vc) pre times ->
  value (search tok (GetSignature sc) (trustedMaterial p) vc) = Err err ->
  NewVerify' p e =
    (retrievals ++
       flat_map (fun t => calls (search t (GetSignature sc) (trustedMaterial p) vc))
                (pre ++ [tok]),
     Err (errors_New "unable to verify timestamp")).
Proof.
  intros Hts Hk Hsc Hvc Hpre Htok.
  destruct (NewVerify_loop VerifyTimestampResponse Certificate_Verify
              p e _ sc vc Hts Hk Hsc Hvc) as [Hv Hc].
  rewrite (M_eq (NewVerify' p e)), Hv, Hc.
  rewrite (loop_stops p _ vc pre times tok post err Hpre Htok []). reflexivity.
Qed.

(** X8: the trust material is asked for its candidates at most once per
    attached token, and exactly once per token when the call succeeds. *)
Theorem trust_material_queried_per_token
    (p : TimestampAuthorityVerifier) (e : SignedEntity) :
  (List.length (filter is_TSACertificateAuthorities (calls (NewVerify' p e)))
   <= List.length (fst (Timestamps e)))%nat /\
  (forall times,
     value (NewVerify' p e) = Ok times ->
     List.length (filter is_TSACertificateAuthorities (calls (NewVerify' p e)))
       = List.length (fst (Timestamps e))).
Proof.
  assert (Hle : forall sig vc ts acc,
    (List.length (filter is_TSACertificateAuthorities (calls (loop p sig vc ts acc)))
     <= List.length ts)%nat).
  { intros sig vc ts. induction ts as [|tok ts IH]; intros acc; simpl; [lia|].
    rewrite calls_bind, filter_app, length_app.
    rewrite (search_queries_once VerifyTimestampResponse Certificate_Verify).
    destruct (value (search tok sig (trustedMaterial p) vc)).
    - specialize (IH (acc ++ [a])). simpl. lia.
    - simpl. lia. }
  assert (Heq : forall sig vc ts acc out,
    value (loop p sig vc ts acc) = Ok out ->
    List.length (filter is_TSACertificateAuthorities (calls (loop p sig vc ts acc)))
      = List.length ts).
  { intros sig vc ts. induction ts as [|tok ts IH]; intros acc out; simpl;
      [reflexivity|].
    rewrite calls_bind, value_bind, filter_app, length_app.
    rewrite (search_queries_once VerifyTimestampResponse Certificate_Verify).
    destruct (value (search tok sig (trustedMaterial p) vc)); [|discriminate].
    intros Hout. rewrite (IH _ _ Hout). reflexivity. }
  destruct (NewVerify_inv p e)
    as [[_ H] | (_ & _ & [(err & _ & H) | [(sc & err & _ & _ & H)
                                          | (sc & vc & _ & _ & H)]])];
    rewrite H; unfold calls, value; simpl; try (split; [lia | discriminate]).
  split; [apply Hle | apply Heq].
Qed.

(** X9: the number of calls the detailed form makes on its collaborators is
    bounded: four retrievals and, per attached token, one query of the
    trust material and three checks per candidate. *)
Theorem calls_are_bounded (p : TimestampAuthorityVerifier) (e : SignedEntity) :
  (List.length (calls (NewVerify' p e))
   <= 4 + List.length (fst (Timestamps e))
          * (1 + 3 * List.length (root.TSACertificateAuthorities (trustedMaterial p))))%nat.
Proof.
  destruct (NewVerify_inv p e)
    as [[_ H] | (_ & _ & [(err & _ & H) | [(sc & err & _ & _ & H)
                                          | (sc & vc & _ & _ & H)]])];
    rewrite H; unfold calls; simpl; try lia.
  pose proof (loop_calls_length p (GetSignature sc) vc (fst (Timestamps e)) []) as Hl.
  unfold calls in Hl. lia.
Qed.

(** X15: attaching further tokens that verify, behind those of an entity
    that verifies, yields the times of that entity followed by the times of
    the further tokens. *)
Theorem further_verified_tokens_append
    (p : TimestampAuthorityVerifier) (e e' : SignedEntity)
    (ts extra : list bytes) (times times' : list time.Time)
    (sc : SignatureContentT) (vc : bundle.VerificationContent) :
  Timestamps e = (ts, None) ->
  Timestamps e' = (ts ++ extra, None) ->
  SignatureContent e = Ok sc -> SignatureContent e' = Ok sc ->
  VerificationContent e = Ok vc -> VerificationContent e' = Ok vc ->
  value (NewVerify' p e) = Ok times ->
  Forall2 (verifies p (GetSignature sc) vc) extra times' ->
  value (NewVerify' p e') = Ok (times ++ times').
Proof.
  intros Hts Hts' Hsc Hsc' Hvc Hvc' Hok Hextra.
  destruct (NewVerify_inv p e)
    as [[_ H] | (_ & Hk & [(err & Hsc0 & H) | [(sc0 & err & _ & Hvc0 & H)
                                              | (sc0 & vc0 & Hsc0 & Hvc0 & H)]])];
    rewrite H in Hok; try discriminate.
  rewrite Hts in Hk, Hok. simpl in Hk, Hok.
  assert (sc0 = sc) by congruence. assert (vc0 = vc) by congruence. subst sc0 vc0.
  unfold value in Hok; simpl in Hok.
  fold (value (loop p (GetSignature sc) vc ts [])) in Hok.
  destruct (loop_Ok_inv _ _ _ _ _ _ _ _ Hok) as (times0 & -> & Hall). simpl.
  destruct (NewVerify_loop VerifyTimestampResponse Certificate_Verify
              p e' _ sc vc Hts') as [-> _];
    [rewrite length_app; lia | exact Hsc' | exact Hvc' |].
  apply (loop_all_verified _ _ _ _ _ _ _ (Forall2_app Hall Hextra) []).
Qed.

(** X16: the order of the attached tokens decides the order of the returned
    times and nothing else: an entity with the same tokens in another order
    verifies too, and its times are the same times in the matching order. *)
Theorem token_order_permutes_times
    (p : TimestampAuthorityVerifier) (e e' : SignedEntity)
    (ts ts' : list bytes) (times : list time.Time)
    (sc : SignatureContentT) (vc : bundle.VerificationContent) :
  Timestamps e = (ts, None) ->
  Timestamps e' = (ts', None) ->
  Permutation ts ts' ->
  SignatureContent e = Ok sc -> SignatureContent e' = Ok sc ->
  VerificationContent e = Ok vc -> VerificationContent e' = Ok vc ->
  value (NewVerify' p e) = Ok times ->
  exists times',
    value (NewVerify' p e') = Ok times' /\ Permutation times times' /\
    Forall2 (verifies p (GetSignature sc) vc) ts' times'.
Proof.
  intros Hts Hts' Hperm Hsc Hsc' Hvc Hvc' Hok.
  destruct (NewVerify_inv p e)
    as [[_ H] | (_ & Hk & [(err & Hsc0 & H) | [(sc0 & err & _ & Hvc0 & H)
                                              | (sc0 & vc0 & Hsc0 & Hvc0 & H)]])];
    rewrite H in Hok; try discriminate.
  rewrite Hts in Hk, Hok. simpl in Hk, Hok.
  assert (sc0 = sc) by congruence. assert (vc0 = vc) by congruence. subst sc0 vc0.
  unfold value in Hok; simpl in Hok.
  fold (value (loop p (GetSignature sc) vc ts [])) in Hok.
  destruct (loop_Ok_inv _ _ _ _ _ _ _ _ Hok) as (times0 & -> & Hall). simpl.
  set (f := fun tok =>
              match value (search tok (GetSignature sc) (trustedMaterial p) vc) with
              | Ok T => T
              | Err _ => time.zero
              end).
  assert (Hall' : Forall2 (verifies p (GetSignature sc) vc) ts' (map f ts')).
  { apply verifies_of_map. intros tok Hin.
    apply (verifies_In p _ vc ts times0 tok Hall).
    apply (Permutation_in _ (Permutation_sym Hperm)), Hin. }
  exists (map f ts'). split; [|split; [|exact Hall']].
  - destruct (NewVerify_loop VerifyTimestampResponse Certificate_Verify
                p e' _ sc vc Hts') as [-> _];
      [rewrite <- (Permutation_length Hperm); exact Hk | exact Hsc' | exact Hvc' |].
    apply (loop_all_verified _ _ _ _ _ _ _ Hall' []).
  - rewrite (verifies_map p _ vc ts times0 Hall). apply Permutation_map, Hperm.
Qed.

(** X17: once the threshold check has passed, a failing retrieval of the
    signature content or of the verification content is passed on as it
    is, whatever tokens are attached; the tokens are not looked at and no
    primitive is called. *)
Theorem content_retrieval_errors_propagate
    (p : TimestampAuthorityVerifier) (e : SignedEntity) (err : error) :
  snd (Timestamps e) = None ->
  threshold p <= Z.of_nat (List.length (fst (Timestamps e))) ->
  (SignatureContent e = Err err ->
   NewVerify' p e = ([Call_Timestamps; Call_SignatureContent], Err err)) /\
  (forall sc, SignatureContent e = Ok sc -> VerificationContent e = Err err ->
              NewVerify' p e = (retrievals, Err err)).
Proof.
  intros Hnil Hk.
  destruct (NewVerify_inv p e)
    as [[[Hne | Hlt] _] | (_ & _ & [(err' & Hsc & H) | [(sc' & err' & Hsc & Hvc & H)
                                                       | (sc' & vc & Hsc & Hvc & H)]])];
    try contradiction; try lia; rewrite H; split;
    try (intros Hsc'; congruence); intros sc Hsc'' Hvc'; congruence.
Qed.

(** X18: the signature content is fetched exactly when the timestamp list
    was retrieved without error and holds at least [threshold] tokens; in
    particular a threshold of zero or below never rejects on the count. *)
Theorem signature_fetched_iff_threshold_passes
    (p : TimestampAuthorityVerifier) (e : SignedEntity) :
  existsb is_SignatureContent (calls (NewVerify' p e)) = true <->
  snd (Timestamps e) = None /\
  threshold p <= Z.of_nat (List.length (fst (Timestamps e))).
Proof.
  destruct (NewVerify_inv p e)
    as [[Hrej H] | (Hnil & Hk & [(err & _ & H) | [(sc & err & _ & _ & H)
                                                 | (sc & vc & _ & _ & H)]])];
    rewrite H; unfold calls; simpl.
  - split; [discriminate|]. intros [Hnil Hk]. destruct Hrej; [contradiction | lia].
  - split; [intros _; split; assumption | reflexivity].
  - split; [intros _; split; assumption | reflexivity].
  - split; [intros _; split; assumption | reflexivity].
Qed.

(** X19: with a trust material that lists no candidate, an entity with at
    least one token that gets past the threshold check and the retrievals
    fails with "unable to verify timestamp" after asking the trust material
    once; no primitive is called. *)
Theorem empty_trust_material_rejects
    (p : TimestampAuthorityVerifier) (e : SignedEntity)
    (tok : bytes) (rest : list bytes)
    (sc : SignatureContentT) (vc : bundle.VerificationContent) :
  root.TSACertificateAuthorities (trustedMaterial p) = [] ->
  Timestamps e = (tok :: rest, None) ->
  threshold p <= Z.of_nat (List.length (tok :: rest)) ->
  SignatureContent e = Ok sc ->
  VerificationContent e = Ok vc ->
  NewVerify' p e =
    (retrievals ++ [Call_TSACertificateAuthorities],
     Err (errors_New "unable to verify timestamp")).
Proof.
  intros Hcas Hts Hk Hsc Hvc.
  destruct (NewVerify_loop VerifyTimestampResponse Certificate_Verify
              p e _ sc vc Hts Hk Hsc Hvc) as [Hv Hc].
  rewrite (M_eq (NewVerify' p e)), Hv, Hc. simpl.
  unfold verifySignedTimestamp, bind, call. rewrite Hcas. reflexivity.
Qed.

End Call.

(** ** The further properties on the examples *)

Section MoreExamples.

Import fixture.

Local Abbreviation sig := (GetSignature signature).

(** X2: second 150 for [tokenA] is backed by a candidate. *)
Lemma verified_time_has_accepting_candidate_witness :
  exists ca, In ca [ca1; ca2] /\
             accepted_by tsa chain tokenA sig (material [ca1; ca2]) signingCert
               ca (at_sec 150).
Proof.
  exact (verified_time_has_accepting_candidate tsa chain tokenA sig signingCert
           (material [ca1; ca2]) (at_sec 150) eq_refl).
Defined.

(** X12: [tokenF] is issued by the authority with the inverted period, at a
    second between its end and its start, and is rejected. *)
Lemma inverted_window_rejects_witness :
  scenario.tsa scenario.tokenF sig (trustedRootVerificationOptions scenario.caInverted)
    = Ok {| tsaverification.Time := at_sec 150 |} /\
  value (tryCertAuthority scenario.tsa chain scenario.tokenF sig
           (material [scenario.caInverted]) signingCert scenario.caInverted) = None.
Proof.
  split; [reflexivity|].
  apply (inverted_window_rejects scenario.tsa chain scenario.tokenF sig signingCert
           (material [scenario.caInverted]) scenario.caInverted eq_refl eq_refl).
  left; simpl; lia.
Defined.

(** X13: [tokenA] verifies with [ca1] alone and still does with [ca2] added. *)
Lemma appended_candidates_preserve_success_witness :
  value (verifySignedTimestamp tsa chain tokenA sig (material [ca1; ca2]) signingCert)
    = Ok (at_sec 150).
Proof.
  apply (appended_candidates_preserve_success tsa chain tokenA sig signingCert
           (material [ca1]) (material [ca1; ca2]) [ca2] (at_sec 150) eq_refl).
  - reflexivity.
  - reflexivity.
Defined.

(** X14: listing [ca1] a second time. *)
Lemma repeated_candidates_change_nothing_witness :
  value (verifySignedTimestamp tsa chain tokenB sig (material [ca1; ca2; ca1]) signingCert)
    = value (verifySignedTimestamp tsa chain tokenB sig (material [ca1; ca2]) signingCert).
Proof.
  apply (repeated_candidates_change_nothing tsa chain tokenB sig signingCert
           (material [ca1; ca2]) (material [ca1; ca2; ca1]) [ca1] eq_refl).
  - intros c [<- | []]. left; reflexivity.
  - reflexivity.
Defined.

(** X4: two tokens, threshold 2. *)
Lemma success_is_sound_witness :
  snd (Timestamps (entity [tokenA; tokenB])) = None /\
  threshold (verifier [ca1; ca2] 2) <= Z.of_nat (List.length [at_sec 150; at_sec 120]) /\
  List.length [at_sec 150; at_sec 120]
    = List.length (fst (Timestamps (entity [tokenA; tokenB]))) /\
  exists sc vc,
    SignatureContent (entity [tokenA; tokenB]) = Ok sc /\
    VerificationContent (entity [tokenA; tokenB]) = Ok vc /\
    Forall2 (fun tok T =>
               exists ca,
                 In ca (root.TSACertificateAuthorities
                          (trustedMaterial (verifier [ca1; ca2] 2))) /\
                 accepted_by tsa chain tok (GetSignature sc)
                   (trustedMaterial (verifier [ca1; ca2] 2)) vc ca T)
            (fst (Timestamps (entity [tokenA; tokenB]))) [at_sec 150; at_sec 120].
Proof.
  exact (success_is_sound tsa chain (verifier [ca1; ca2] 2) (entity [tokenA; tokenB])
           [at_sec 150; at_sec 120] eq_refl).
Defined.

(** X5: the error for an entity whose only token no candidate accepts. *)
Lemma errors_are_of_four_kinds_witness :
  errors_New "unable to verify timestamp"
    = Errorf_not_enough (Z.of_nat (List.length (fst (Timestamps (entity [tokenX])))))
        (threshold (verifier [ca1] 1)) \/
  SignatureContent (entity [tokenX]) = Err (errors_New "unable to verify timestamp") \/
  VerificationContent (entity [tokenX]) = Err (errors_New "unable to verify timestamp") \/
  errors_New "unable to verify timestamp" = errors_New "unable to verify timestamp".
Proof.
  exact (errors_are_of_four_kinds tsa chain (verifier [ca1] 1) (entity [tokenX])
           (errors_New "unable to verify timestamp") eq_refl).
Defined.

(** X6: threshold 2 lowered to 1. *)
Lemma lower_threshold_keeps_success_witness :
  NewVerify tsa chain (verifier [ca1; ca2] 1) (entity [tokenA; tokenB])
    = NewVerify tsa chain (verifier [ca1; ca2] 2) (entity [tokenA; tokenB]).
Proof.
  apply (lower_threshold_keeps_success tsa chain (verifier [ca1; ca2] 2)
           (verifier [ca1; ca2] 1) (entity [tokenA; tokenB]) [at_sec 150; at_sec 120]).
  - reflexivity.
  - simpl; lia.
  - reflexivity.
Defined.

(** X7: [tokenX] stands between two tokens that verify; the call makes the
    searches for [tokenA] and [tokenX] and none for [tokenB]. *)
Lemma stops_at_first_unverifiable_token_witness :
  NewVerify tsa chain (verifier [ca1] 1) (entity [tokenA; tokenX; tokenE])
    = ([ Call_Timestamps; Call_SignatureContent; Call_GetSignature;
         Call_VerificationContent;
         Call_TSACertificateAuthorities;
         Call_VerifyTimestampResponse tokenA sig (trustedRootVerificationOptions ca1);
         Call_Verify (root.Leaf ca1) (verificationOptions ca1 (at_sec 150));
         Call_ValidAtTime (at_sec 150);
         Call_TSACertificateAuthorities;
         Call_VerifyTimestampResponse tokenX sig (trustedRootVerificationOptions ca1) ],
       Err (errors_New "unable to verify timestamp")).
Proof.
  apply (stops_at_first_unverifiable_token tsa chain (verifier [ca1] 1)
           (entity [tokenA; tokenX; tokenE]) [tokenA] [tokenE] tokenX [at_sec 150]
           signature signingCert (errors_New "Unable to verify signed timestamps")
           eq_refl).
  - simpl; lia.
  - reflexivity.
  - reflexivity.
  - constructor; [reflexivity | constructor].
  - reflexivity.
Defined.

(** X15: [tokenB] attached behind [tokenA]. *)
Lemma further_verified_tokens_append_witness :
  value (NewVerify tsa chain (verifier [ca1; ca2] 1) (entity [tokenA; tokenB]))
    = Ok ([at_sec 150] ++ [at_sec 120]).
Proof.
  apply (further_verified_tokens_append tsa chain (verifier [ca1; ca2] 1)
           (entity [tokenA]) (entity [tokenA; tokenB]) [tokenA] [tokenB]
           [at_sec 150] [at_sec 120] signature signingCert
           eq_refl eq_refl eq_refl eq_refl eq_refl eq_refl eq_refl).
  constructor; [reflexivity | constructor].
Defined.

(** X16: [tokenA] and [tokenB] swapped. *)
Lemma token_order_permutes_times_witness :
  exists times',
    value (NewVerify tsa chain (verifier [ca1; ca2] 2) (entity [tokenB; tokenA]))
      = Ok times' /\
    Permutation [at_sec 150; at_sec 120] times' /\
    Forall2 (fun tok T =>
               value (verifySignedTimestamp tsa chain tok sig
                        (trustedMaterial (verifier [ca1; ca2] 2)) signingCert) = Ok T)
            [tokenB; tokenA] times'.
Proof.
  apply (token_order_permutes_times tsa chain (verifier [ca1; ca2] 2)
           (entity [tokenA; tokenB]) (entity [tokenB; tokenA])
           [tokenA; tokenB] [tokenB; tokenA] [at_sec 150; at_sec 120]
           signature signingCert eq_refl eq_refl (perm_swap tokenB tokenA [])
           eq_refl eq_refl eq_refl eq_refl eq_refl).
Defined.

(** X17: the signature of the entity cannot be read. *)
Lemma content_retrieval_errors_propagate_witness :
  NewVerify tsa chain (verifier [ca1] 1) (unsignedEntity [tokenA])
    = ([Call_Timestamps; Call_SignatureContent],
       Err (errors_New "no signature in bundle")).
Proof.
  apply (proj1 (content_retrieval_errors_propagate tsa chain (verifier [ca1] 1)
                  (unsignedEntity [tokenA]) (errors_New "no signature in bundle")
                  eq_refl ltac:(simpl; lia))).
  reflexivity.
Defined.

(** X19: no candidate at all. *)
Lemma empty_trust_material_rejects_witness :
  NewVerify tsa chain (verifier [] 1) (entity [tokenA])
    = ([ Call_Timestamps; Call_SignatureContent; Call_GetSignature;
         Call_VerificationContent; Call_TSACertificateAuthorities ],
       Err (errors_New "unable to verify timestamp")).
Proof.
  apply (empty_trust_material_rejects tsa chain (verifier [] 1) (entity [tokenA])
           tokenA [] signature signingCert eq_refl eq_refl).
  - simpl; lia.
  - reflexivity.
  - reflexivity.
Defined.

End MoreExamples.
